(** * The LSP facade of the Go language server: session model and dispatch

    A shallow embedding of [src-vscode-mock/lsp-server.ts] (class
    [LspServer]).  JavaScript objects that the server shares between its
    registry, the visible-editor list and the active-editor pointer live in
    an object store and are referred to by object identifiers, so that the
    [===] comparisons of the source are comparisons of identifiers.
    Handlers are state transformers that may throw; everything the server
    does to the outside (logging, build trigger, client notifications,
    provider calls, commands) is recorded, in order, in a trace.

    Asynchrony: every handler is run to completion.  The only code the
    source schedules after a suspension is the continuation of a provider
    call and the [then] of [didSaveTextDocument]; neither writes the
    registry, the window or the flag, so the sequential model reaches the
    same session states. *)

From stdpp Require Import gmap strings list fin_maps.
From Stdlib Require Import ZArith DecimalString.

Open Scope string_scope.
Open Scope list_scope.

(** ** Values of the host language *)

(** Identity of a heap-allocated object. *)
Abbreviation Oid := nat (only parsing).

Record Position := mkPosition { line : Z; character : Z }.

(** [lsp.Range]: a plain object with a [start] and an [end]. *)
Record Range := mkRange { range_start : Position; range_end : Position }.

(** The untyped values that reach the server in [params.arguments].  A
    number is an integer in the range that JavaScript prints in plain
    decimal notation. *)
Inductive JsValue :=
| JUndefined
| JNull
| JBool (b : bool)
| JNum (n : Z)
| JStr (s : string)
| JRange (r : Range).

(** Truthiness, as tested by [if (selection)]. *)
Definition truthy (v : JsValue) : bool :=
  match v with
  | JUndefined | JNull => false
  | JBool b => b
  | JNum n => negb (n =? 0)%Z
  | JStr s => negb (String.eqb s "")
  | JRange _ => true
  end.

(** String coercion, as performed by ['Document ' + uri + ...]. *)
Definition js_to_string (v : JsValue) : string :=
  match v with
  | JUndefined => "undefined"
  | JNull => "null"
  | JBool true => "true"
  | JBool false => "false"
  | JNum n => NilZero.string_of_int (Z.to_int n)
  | JStr s => s
  | JRange _ => "[object Object]"
  end.

(** Property reads [v.start] and [v.end]; a missing property is undefined. *)
Definition js_start (v : JsValue) : option Position :=
  match v with JRange r => Some (range_start r) | _ => None end.

Definition js_end (v : JsValue) : option Position :=
  match v with JRange r => Some (range_end r) | _ => None end.

(** [args[i]] for a possibly negative index: out of range reads undefined. *)
Definition js_index (args : list JsValue) (i : Z) : JsValue :=
  if (i <? 0)%Z then JUndefined
  else match args !! Z.to_nat i with Some v => v | None => JUndefined end.

(** [args.slice(0, -2)]: everything but the last two elements. *)
Definition slice_0_minus2 {A} (args : list A) : list A :=
  take (length args - 2) args.

(** [array.splice(i)] with the delete count omitted: every element from
    index [i] to the end is removed. *)
Definition splice_from {A} (i : nat) (l : list A) : list A := take i l.

(** [array.find(p)]: the first element satisfying [p], else undefined. *)
Fixpoint js_find {A} (p : A -> bool) (l : list A) : option A :=
  match l with
  | [] => None
  | x :: l' => if p x then Some x else js_find p l'
  end.

(** The loop of [didCloseTextDocument]: the index at which a [for] loop
    over [l], starting at [i], breaks, or the length if it never does. *)
Fixpoint first_index_from {A} (p : A -> bool) (l : list A) (i : nat) : nat :=
  match l with
  | [] => i
  | x :: l' => if p x then i else first_index_from p l' (S i)
  end.

(** ** Errors *)

Inductive ErrorCode := ParseError | InvalidRequest | MethodNotFound
                     | InvalidParams | InternalError.

(** What a handler or a provider can throw (or reject with): an [Error]
    object, a [TypeError] raised by the engine, a plain string, or an
    [lsp.ResponseError].  A response error is an [Error] whose constructor
    hands its message to [Error], which keeps it as a string, and stores its
    data as it is. *)
Inductive Thrown :=
| ThrownError (message : string)           (* new Error(message) *)
| ThrownTypeError (what : string)          (* raised by the engine *)
| ThrownValue (description : string)       (* the string itself is thrown *)
| ThrownResponseError (code : ErrorCode) (message : string) (data : Thrown).

(** [Error.prototype.toString]: the name, then the message if there is one. *)
Definition error_to_string (name message : string) : string :=
  if String.eqb message "" then name else name +:+ ": " +:+ message.

(** String coercion of a thrown value, as done by [Error(message)] on the
    message it is given.  A response error does not rename itself. *)
Definition thrown_to_string (err : Thrown) : string :=
  match err with
  | ThrownError message => error_to_string "Error" message
  | ThrownTypeError what => error_to_string "TypeError" what
  | ThrownValue description => description
  | ThrownResponseError _ message _ => error_to_string "Error" message
  end.

Inductive Result (A : Type) :=
| Ok (a : A)
| Throw (e : Thrown).
Arguments Ok {A} a.
Arguments Throw {A} e.

Definition is_ok {A} (r : Result A) : bool :=
  match r with Ok _ => true | Throw _ => false end.

(** ** Objects of the session *)

(** A [Uri] object: its identity and the string it was parsed from. *)
Record Uri := mkUri { uri_oid : Oid; uri_text : string }.

(** [a === b] on two [Uri] objects is identity of the objects. *)
Definition uri_identical (a b : Uri) : bool := Nat.eqb (uri_oid a) (uri_oid b).

Record TextDocumentItem := mkItem {
  item_uri : string;
  item_languageId : string;
  item_version : Z;
  item_text : string
}.

(** [new Selection(new Range(start, end))]. *)
Record Selection := mkSelection {
  sel_start : option Position;
  sel_end : option Position
}.

Inductive MessageType := MTError | MTWarning | MTInfo | MTLog.

Record ShowMessageParams := mkShow { sm_message : Thrown; sm_type : MessageType }.

(** Everything the server does to its environment. *)
Inductive Event :=
| EvLog (service : string) (path : option string)  (* logger.log *)
| EvBuild (force : bool)                           (* buildCode(force) *)
| EvShowMessage (p : ShowMessageParams)            (* lspClient.showMessage *)
| EvDocApply (document : Oid)                      (* document.apply(..) *)
| EvDocSave (document : Oid)                       (* document.save() *)
| EvProvider (operation : string) (document : option Oid)
| EvCommand (name : string) (args : list JsValue). (* commands.executeCommand *)

Definition is_build (e : Event) : bool :=
  match e with EvBuild _ => true | _ => false end.

Definition build_calls (t : list Event) : nat := length (List.filter is_build t).

Definition notifications (t : list Event) : list ShowMessageParams :=
  omap (fun e => match e with EvShowMessage p => Some p | _ => None end) t.



(** ** The session state *)

Section Server.

(** [Json] stands for the payloads the dispatcher passes through without
    looking inside (hovers, edits, completion items, options); [DocBody] for
    the private content of a [TextDocument] (text, version, dirty flag). *)
Context {Json DocBody : Type}.

(** Modelled from the spec: the [TextDocument] class (./text-document) is not
    part of the sources.  A document's identity is its URI.  The server reads
    [document.uri] as a [Uri] object (it hands it to [uriToStringUri] and
    compares it by [===] with other [Uri] objects), so a document holds one
    [Uri] object, parsed from the item's URI string when the document is
    constructed; [apply] and [save] mutate its content in place. *)
Record TextDocument := mkDoc { doc_uri : Uri; doc_body : DocBody }.

(** Modelled from the spec: the [TextEditor] class (./text-editor) is not
    part of the sources.  An editor is a view over exactly one document
    plus a current selection. *)
Record TextEditor := mkEditor { ed_document : Oid; ed_selection : option Selection }.

(** Modelled from the spec: the [window] singleton (./window) is not part of
    the sources: the ordered list of visible editors and the nullable active
    editor, both references to editor objects. *)
Record Window := mkWindow {
  visibleTextEditors : list Oid;
  activeTextEditor : option Oid
}.

Record ServerState := mkState {
  openedDocumentUris : gmap string Oid;   (* Map<string, TextDocument> *)
  hasStartedInitialBuild : bool;
  window : Window;
  documents : gmap Oid TextDocument;      (* object store: documents *)
  editors : gmap Oid TextEditor;          (* object store: editors *)
  next_oid : Oid;                         (* allocator of identities *)
  trace : list Event
}.

(** Modelled from the spec: active state is initialised empty at server
    start; the registry and the flag are initialised by the class itself. *)
Definition initial_state : ServerState :=
  mkState ∅ false (mkWindow [] None) ∅ ∅ 0 [].

Definition with_registry (f : gmap string Oid -> gmap string Oid) (st : ServerState) :=
  mkState (f (openedDocumentUris st)) (hasStartedInitialBuild st) (window st)
          (documents st) (editors st) (next_oid st) (trace st).

Definition with_flag (b : bool) (st : ServerState) :=
  mkState (openedDocumentUris st) b (window st)
          (documents st) (editors st) (next_oid st) (trace st).

Definition with_window (f : Window -> Window) (st : ServerState) :=
  mkState (openedDocumentUris st) (hasStartedInitialBuild st) (f (window st))
          (documents st) (editors st) (next_oid st) (trace st).

Definition with_documents (f : gmap Oid TextDocument -> gmap Oid TextDocument)
  (st : ServerState) :=
  mkState (openedDocumentUris st) (hasStartedInitialBuild st) (window st)
          (f (documents st)) (editors st) (next_oid st) (trace st).

Definition with_editors (f : gmap Oid TextEditor -> gmap Oid TextEditor)
  (st : ServerState) :=
  mkState (openedDocumentUris st) (hasStartedInitialBuild st) (window st)
          (documents st) (f (editors st)) (next_oid st) (trace st).

Definition with_next_oid (n : Oid) (st : ServerState) :=
  mkState (openedDocumentUris st) (hasStartedInitialBuild st) (window st)
          (documents st) (editors st) n (trace st).

Definition add_event (e : Event) (st : ServerState) :=
  mkState (openedDocumentUris st) (hasStartedInitialBuild st) (window st)
          (documents st) (editors st) (next_oid st) (trace st ++ [e]).

(** The state with [t] appended to its trace and nothing else changed. *)
Definition append_trace (t : list Event) (st : ServerState) :=
  mkState (openedDocumentUris st) (hasStartedInitialBuild st) (window st)
          (documents st) (editors st) (next_oid st) (trace st ++ t).

(** ** Handlers: state transformers that may throw *)

Definition M (A : Type) : Type := ServerState -> Result A * ServerState.

Definition ret {A} (a : A) : M A := fun st => (Ok a, st).

Definition throw {A} (e : Thrown) : M A := fun st => (Throw e, st).

Definition bind {A B} (m : M A) (k : A -> M B) : M B :=
  fun st => match m st with
            | (Ok a, st') => k a st'
            | (Throw e, st') => (Throw e, st')
            end.

(** [promise.catch(h)] *)
Definition catch {A} (m : M A) (h : Thrown -> M A) : M A :=
  fun st => match m st with
            | (Ok a, st') => (Ok a, st')
            | (Throw e, st') => h e st'
            end.

(** The body of an asynchronous function, started by a synchronous caller:
    the call itself returns a promise, whose settlement is the body's
    outcome. *)
Definition settle {A} (m : M A) : M (Result A) :=
  fun st => let '(r, st') := m st in (Ok r, st').

(** [return promise] inside an [async] function: the function's own promise
    settles as the returned one; a synchronous throw rejects it. *)
Definition await {A} (m : M (Result A)) : M A :=
  fun st => match m st with
            | (Ok r, st') => (r, st')
            | (Throw e, st') => (Throw e, st')
            end.

Definition get : M ServerState := fun st => (Ok st, st).

Definition modify (f : ServerState -> ServerState) : M unit :=
  fun st => (Ok tt, f st).

Definition emit (e : Event) : M unit := modify (add_event e).

(** ** Shapes of requests and responses *)

(** [Location] of ./types: a range and a URI string. *)
Record Location := mkLocation { loc_range : Range; loc_uri : string }.

Record SymbolInformation := mkSymbol {
  sym_info : Json;
  sym_range : Range;
  sym_location : option Location
}.

Record CompletionList := mkCompletionList {
  isIncomplete : bool;
  items : list Json
}.

(** [CodeLens] of ./types: an LSP code lens that also remembers a document. *)
Record CodeLens := mkCodeLens {
  lens_range : Range;
  lens_command : option Json;
  lens_document : option Oid
}.

(** What [definition] answers: the provider's value, or the empty array. *)
Inductive DefinitionResult :=
| DefinitionOf (d : Json)
| DefinitionNone.

(** ** Collaborators

    The providers, the command registry, the build trigger and the helper
    modules are imported by the server and are not part of its source file.
    They are taken as parameters.  A provider reads the session (the
    document it is given, the active editor) and answers or fails; it does
    not write the session. *)
Class Collaborators := {
  uriToPath : string -> string;
  uriToStringUri : Uri -> string;
  (* the TextDocument class *)
  initial_body : TextDocumentItem -> DocBody;
  body_apply : list Json -> Z -> DocBody -> Result unit * DocBody;
  body_save : DocBody -> Result unit * DocBody;
  (* the providers *)
  provideDefinition : ServerState -> Oid -> Position -> Result (option Json);
  provideDocumentSymbols : ServerState -> Oid -> Result (list SymbolInformation);
  provideCompletionItems : ServerState -> Oid -> Position -> Result (list Json);
  provideHover : ServerState -> Oid -> Position -> Result Json;
  provideRenameEdits : ServerState -> Oid -> Position -> string -> Result Json;
  provideReferences : ServerState -> Oid -> Position -> bool -> Result Json;
  provideDocumentFormattingEdits : ServerState -> Oid -> Json -> Result Json;
  provideSignatureHelp : ServerState -> Oid -> Position -> Result Json;
  provideCodeActions : ServerState -> Oid -> Range -> Json -> Result Json;
  reference_provideCodeLenses : ServerState -> Oid -> Result (list CodeLens);
  test_provideCodeLenses : ServerState -> Oid -> Result (list CodeLens);
  resolveCodeLens : ServerState -> CodeLens -> Result CodeLens;
  provideWorkspaceSymbols : ServerState -> string -> Result Json;
  (* snippetProposalProvider.proposals *)
  proposals : list Json;
  (* commands.executeCommand *)
  commands_executeCommand : ServerState -> string -> list JsValue -> Result Json
}.

Context {host : Collaborators}.

Declare Scope handler_scope.
Delimit Scope handler_scope with handler.
Bind Scope handler_scope with M.
Notation "x <- m ;; k" := (bind m (fun x => k))
  (at level 100, m at next level, right associativity) : handler_scope.
Notation "m ;;; k" := (bind m (fun _ => k))
  (at level 100, right associativity) : handler_scope.
Local Open Scope handler_scope.

(** ** Primitive effects *)

(** [this.logger.log(service, params, path)] *)
Definition log (service : string) (path : option string) : M unit :=
  emit (EvLog service path).

(** [buildCode(force)]: fire and forget. *)
Definition buildCode (force : bool) : M unit := emit (EvBuild force).

(** [this.options.lspClient.showMessage(p)] *)
Definition showMessage (p : ShowMessageParams) : M unit := emit (EvShowMessage p).

(** Allocation of a new object identity. *)
Definition fresh : M Oid :=
  fun st => (Ok (next_oid st), with_next_oid (S (next_oid st)) st).

(** [Uri.parse(s)] of vscode-uri: a new [Uri] object on every call. *)
Definition Uri_parse (s : string) : M Uri :=
  o <- fresh ;; ret (mkUri o s).

(** Modelled from the spec: [new TextDocument(item)]; the constructor parses
    the item's URI into the document's [uri] and sets up the content. *)
Definition new_TextDocument (item : TextDocumentItem) : M Oid :=
  u <- Uri_parse (item_uri item) ;;
  d <- fresh ;;
  modify (with_documents <[d := mkDoc u (initial_body item)]>) ;;;
  ret d.

(** Modelled from the spec: [new TextEditor(document, lspClient)]; a view
    over the document, with no selection yet. *)
Definition new_TextEditor (document : Oid) : M Oid :=
  e <- fresh ;;
  modify (with_editors <[e := mkEditor document None]>) ;;;
  ret e.

(** A call to a provider: recorded, then answered by the provider from the
    session as it is at the time of the call. *)
Definition call {A} (operation : string) (document : option Oid)
    (provider : ServerState -> Result A) : M A :=
  fun st => (provider st, add_event (EvProvider operation document) st).

(** A method of a document object that mutates its content and may throw. *)
Definition on_body (document : Oid) (f : DocBody -> Result unit * DocBody) : M unit :=
  fun st =>
    match documents st !! document with
    | Some doc =>
        let '(r, body) := f (doc_body doc) in
        (r, with_documents <[document := mkDoc (doc_uri doc) body]> st)
    | None => (Throw (ThrownTypeError "not a TextDocument"), st)
    end.

(** [document.apply(contentChanges, version)] *)
Definition document_apply (document : Oid) (contentChanges : list Json) (version : Z)
    : M unit :=
  emit (EvDocApply document) ;;;
  on_body document (body_apply contentChanges version).

(** [document.save()] *)
Definition document_save (document : Oid) : M unit :=
  emit (EvDocSave document) ;;;
  on_body document body_save.

(** [editor.document.uri] and [document.uri], read through the store. *)
Definition document_uri (st : ServerState) (document : Oid) : option Uri :=
  doc_uri <$> documents st !! document.

Definition editor_document (st : ServerState) (editor : Oid) : option Oid :=
  ed_document <$> editors st !! editor.

Definition editor_document_uri (st : ServerState) (editor : Oid) : option Uri :=
  editor_document st editor ≫= document_uri st.

(** [a === b] where either side may have failed to evaluate to a [Uri]. *)
Definition identical (a b : option Uri) : bool :=
  match a, b with
  | Some u, Some v => uri_identical u v
  | _, _ => false
  end.

(** ** The server *)

(** [getOpenDocument(uri)]; [executeCommand] passes it an untyped value. *)
Definition getOpenDocument (uri : JsValue) : M Oid :=
  st <- get ;;
  let doc := match uri with
             | JStr s => openedDocumentUris st !! s
             | _ => None
             end in
  match doc with
  | Some doc => ret doc
  | None => throw (ThrownError ("Document " +:+ js_to_string uri +:+ " has not been opened."))
  end.

(** [activateEditor(document, selection?)] *)
Definition activateEditor (document : Oid) (selection : JsValue) : M Oid :=
  st <- get ;;
  let found := js_find (fun editor =>
                   identical (editor_document_uri st editor) (document_uri st document))
                 (visibleTextEditors (window st)) in
  modify (with_window (fun w => mkWindow (visibleTextEditors w) found)) ;;;
  (if truthy selection then
     match found with
     | Some editor =>
         modify (with_editors (alter (fun e =>
           mkEditor (ed_document e)
                    (Some (mkSelection (js_start selection) (js_end selection)))) editor))
     | None => throw (ThrownTypeError "Cannot set property 'selection' of undefined")
     end
   else ret tt) ;;;
  ret document.

(** The session once [document] has been activated without a selection. *)
Definition activated (document : Oid) (st : ServerState) : ServerState :=
  with_window (fun w => mkWindow (visibleTextEditors w)
    (js_find (fun editor =>
        identical (editor_document_uri st editor) (document_uri st document))
      (visibleTextEditors (window st)))) st.

(** The session in which the lambda of [executeOnDocument] starts. *)
Definition entered (serviceName uri : string) (document : Oid) (st : ServerState)
    : ServerState :=
  activated document (add_event (EvLog serviceName (Some (uriToPath uri))) st).

(** The error of [getOpenDocument]. *)
Definition DocumentNotOpen (uri : JsValue) : Thrown :=
  ThrownError ("Document " +:+ js_to_string uri +:+ " has not been opened.").

(** [executeOnDocument(serviceName, params, lambda)].  The function is not
    [async]: a failed lookup is thrown at the caller, and what it returns is
    the promise of the lambda with the [catch] handler attached. *)
Definition executeOnDocument {T} (serviceName : string) (uri : string)
    (lambda : Oid -> M T) : M (Result T) :=
  let path := uriToPath uri in
  log serviceName (Some path) ;;;
  document <- getOpenDocument (JStr uri) ;;
  activateEditor document JUndefined ;;;
  settle (catch (lambda document) (fun err =>
    showMessage (mkShow err MTError) ;;;
    throw (ThrownResponseError InvalidRequest (thrown_to_string err) err))).

Definition didOpenTextDocument (textDocument : TextDocumentItem) : M unit :=
  let path := uriToPath (item_uri textDocument) in
  log "onDidOpenTextDocument" (Some path) ;;;
  document <- new_TextDocument textDocument ;;
  modify (with_registry <[item_uri textDocument := document]>) ;;;
  editor <- new_TextEditor document ;;
  modify (with_window (fun w => mkWindow (visibleTextEditors w ++ [editor])
                                         (activeTextEditor w))) ;;;
  modify (with_window (fun w => mkWindow (visibleTextEditors w) (Some editor))) ;;;
  (* doBuild requires an active editor so we start the initial build this late *)
  st <- get ;;
  let hadBuild := hasStartedInitialBuild st in
  modify (with_flag true) ;;;
  buildCode false.

Definition didCloseTextDocument (textDocument_uri : string) : M unit :=
  let path := uriToPath textDocument_uri in
  log "onDidCloseTextDocument" (Some path) ;;;
  modify (with_registry (delete textDocument_uri)) ;;;
  uri <- Uri_parse textDocument_uri ;;
  st <- get ;;
  let visible := visibleTextEditors (window st) in
  let i := first_index_from (fun editor =>
               identical (editor_document_uri st editor) (Some uri)) visible 0 in
  if (i <? length visible)%nat
  then modify (with_window (fun w => mkWindow (splice_from i (visibleTextEditors w))
                                              (activeTextEditor w)))
  else ret tt.

(** The promise of [executeOnDocument] is dropped. *)
Definition didChangeTextDocument (uri : string) (version : Z)
    (contentChanges : list Json) : M unit :=
  _ <- executeOnDocument "onDidCloseTextDocument" uri (fun document =>
         document_apply document contentChanges version) ;;
  ret tt.

(** [.then(() => buildCode(false))]: runs only if the promise fulfils. *)
Definition didSaveTextDocument (uri : string) : M unit :=
  saved <- executeOnDocument "onDidSaveTextDocument" uri (fun document =>
             document_save document) ;;
  match saved with
  | Ok _ => buildCode false
  | Throw _ => ret tt
  end.

Definition definition (uri : string) (position : Position) : M DefinitionResult :=
  await (executeOnDocument "definition" uri (fun document =>
    definition <- call "provideDefinition" (Some document)
                    (fun st => provideDefinition st document position) ;;
    match definition with
    | Some d => ret (DefinitionOf d)
    | None => ret DefinitionNone
    end)).

Definition documentSymbol (uri : string) : M (list SymbolInformation) :=
  await (executeOnDocument "symbol" uri (fun document =>
    symbolInformation <- call "provideDocumentSymbols" (Some document)
                           (fun st => provideDocumentSymbols st document) ;;
    st <- get ;;
    match document_uri st document with
    | Some u =>
        ret (map (fun symbol =>
               mkSymbol (sym_info symbol) (sym_range symbol)
                        (Some (mkLocation (sym_range symbol) (uriToStringUri u))))
             symbolInformation)
    | None => throw (ThrownTypeError "not a TextDocument")
    end)).

Definition completion (uri : string) (position : Position) : M CompletionList :=
  await (executeOnDocument "completion" uri (fun document =>
    items <- call "provideCompletionItems" (Some document)
               (fun st => provideCompletionItems st document position) ;;
    ret {| isIncomplete := false; items := items ++ proposals |})).

Definition hover (uri : string) (position : Position) : M Json :=
  await (executeOnDocument "hover" uri (fun document =>
    call "provideHover" (Some document)
      (fun st => provideHover st document position))).

Definition rename (uri : string) (position : Position) (newName : string) : M Json :=
  await (executeOnDocument "onRename" uri (fun document =>
    call "provideRenameEdits" (Some document)
      (fun st => provideRenameEdits st document position newName))).

Definition references (uri : string) (position : Position) : M Json :=
  await (executeOnDocument "onReferences" uri (fun document =>
    call "provideReferences" (Some document)
      (fun st => provideReferences st document position true))).

Definition documentFormatting (uri : string) (options : Json) : M Json :=
  await (executeOnDocument "format" uri (fun document =>
    call "provideDocumentFormattingEdits" (Some document)
      (fun st => provideDocumentFormattingEdits st document options))).

Definition signatureHelp (uri : string) (position : Position) : M Json :=
  await (executeOnDocument "signatureHelp" uri (fun document =>
    call "provideSignatureHelp" (Some document)
      (fun st => provideSignatureHelp st document position))).

Definition codeAction (uri : string) (range : Range) (context : Json) : M Json :=
  await (executeOnDocument "codeAction" uri (fun document =>
    call "provideCodeActions" (Some document)
      (fun st => provideCodeActions st document range context))).

Definition codeLens (uri : string) : M (list CodeLens) :=
  await (executeOnDocument "codeLens" uri (fun document =>
    referenceCodeLenses <- call "reference.provideCodeLenses" (Some document)
                             (fun st => reference_provideCodeLenses st document) ;;
    testCodeLenses <- call "test.provideCodeLenses" (Some document)
                        (fun st => test_provideCodeLenses st document) ;;
    ret (referenceCodeLenses ++ testCodeLenses))).

Definition codeLensResolve (codeLens : CodeLens) : M CodeLens :=
  st <- get ;;
  match activeTextEditor (window st) ≫= editor_document st with
  | Some document =>
      let codeLens := mkCodeLens (lens_range codeLens) (lens_command codeLens)
                                 (Some document) in
      call "resolveCodeLens" (Some document) (fun st => resolveCodeLens st codeLens)
  | None => throw (ThrownTypeError "Cannot read property 'document' of undefined")
  end.

Definition executeCommand (command : string) (arguments : option (list JsValue))
    : M Json :=
  log "executeCommand" None ;;;
  match arguments with
  | None => throw (ThrownTypeError "Cannot read property 'length' of undefined")
  | Some args =>
      document <- getOpenDocument (js_index args (Z.of_nat (length args) - 2)) ;;
      let selection := js_index args (Z.of_nat (length args) - 1) in
      activateEditor document selection ;;;
      fun st => (commands_executeCommand st command (slice_0_minus2 args),
                 add_event (EvCommand command (slice_0_minus2 args)) st)
  end.

Definition documentHighlight (uri : string) (position : Position) : M (list Json) :=
  log "documentHighlight" None ;;;
  (* TODO *)
  ret [].

Definition workspaceSymbol (query : string) : M Json :=
  log "symbol" None ;;;
  call "provideWorkspaceSymbols" None (fun st => provideWorkspaceSymbols st query).

(** ** The dispatch table *)

(** The document-based requests, each with the URI of its
    [params.textDocument] and its other parameters. *)
Inductive DocRequest :=
| ReqDefinition (uri : string) (position : Position)
| ReqDocumentSymbol (uri : string)
| ReqCompletion (uri : string) (position : Position)
| ReqHover (uri : string) (position : Position)
| ReqRename (uri : string) (position : Position) (newName : string)
| ReqReferences (uri : string) (position : Position)
| ReqDocumentFormatting (uri : string) (options : Json)
| ReqSignatureHelp (uri : string) (position : Position)
| ReqCodeAction (uri : string) (range : Range) (context : Json)
| ReqCodeLens (uri : string).

Definition request_uri (r : DocRequest) : string :=
  match r with
  | ReqDefinition uri _ | ReqDocumentSymbol uri | ReqCompletion uri _
  | ReqHover uri _ | ReqRename uri _ _ | ReqReferences uri _
  | ReqDocumentFormatting uri _ | ReqSignatureHelp uri _
  | ReqCodeAction uri _ _ | ReqCodeLens uri => uri
  end.

Inductive Response :=
| RVoid
| RDefinition (d : DefinitionResult)
| RSymbols (l : list SymbolInformation)
| RCompletion (c : CompletionList)
| RJson (j : Json)
| RCodeLenses (l : list CodeLens)
| RCodeLens (c : CodeLens)
| RHighlights (l : list Json).

Definition fmap {A B} (f : A -> B) (m : M A) : M B :=
  a <- m ;; ret (f a).

Definition handle (r : DocRequest) : M Response :=
  match r with
  | ReqDefinition uri position => fmap RDefinition (definition uri position)
  | ReqDocumentSymbol uri => fmap RSymbols (documentSymbol uri)
  | ReqCompletion uri position => fmap RCompletion (completion uri position)
  | ReqHover uri position => fmap RJson (hover uri position)
  | ReqRename uri position newName => fmap RJson (rename uri position newName)
  | ReqReferences uri position => fmap RJson (references uri position)
  | ReqDocumentFormatting uri options => fmap RJson (documentFormatting uri options)
  | ReqSignatureHelp uri position => fmap RJson (signatureHelp uri position)
  | ReqCodeAction uri range context => fmap RJson (codeAction uri range context)
  | ReqCodeLens uri => fmap RCodeLenses (codeLens uri)
  end.

(** The service name each request logs, and the lambda it hands to
    [executeOnDocument], with the answer injected into [Response]. *)
Definition service_name (r : DocRequest) : string :=
  match r with
  | ReqDefinition _ _ => "definition"
  | ReqDocumentSymbol _ => "symbol"
  | ReqCompletion _ _ => "completion"
  | ReqHover _ _ => "hover"
  | ReqRename _ _ _ => "onRename"
  | ReqReferences _ _ => "onReferences"
  | ReqDocumentFormatting _ _ => "format"
  | ReqSignatureHelp _ _ => "signatureHelp"
  | ReqCodeAction _ _ _ => "codeAction"
  | ReqCodeLens _ => "codeLens"
  end.

Definition delegate (r : DocRequest) (document : Oid) : M Response :=
  match r with
  | ReqDefinition _ position =>
      definition <- call "provideDefinition" (Some document)
                      (fun st => provideDefinition st document position) ;;
      match definition with
      | Some d => ret (RDefinition (DefinitionOf d))
      | None => ret (RDefinition DefinitionNone)
      end
  | ReqDocumentSymbol _ =>
      symbolInformation <- call "provideDocumentSymbols" (Some document)
                             (fun st => provideDocumentSymbols st document) ;;
      st <- get ;;
      match document_uri st document with
      | Some u =>
          ret (RSymbols (map (fun symbol =>
                 mkSymbol (sym_info symbol) (sym_range symbol)
                          (Some (mkLocation (sym_range symbol) (uriToStringUri u))))
               symbolInformation))
      | None => throw (ThrownTypeError "not a TextDocument")
      end
  | ReqCompletion _ position =>
      items <- call "provideCompletionItems" (Some document)
                 (fun st => provideCompletionItems st document position) ;;
      ret (RCompletion {| isIncomplete := false; items := items ++ proposals |})
  | ReqHover _ position =>
      fmap RJson (call "provideHover" (Some document)
                    (fun st => provideHover st document position))
  | ReqRename _ position newName =>
      fmap RJson (call "provideRenameEdits" (Some document)
                    (fun st => provideRenameEdits st document position newName))
  | ReqReferences _ position =>
      fmap RJson (call "provideReferences" (Some document)
                    (fun st => provideReferences st document position true))
  | ReqDocumentFormatting _ options =>
      fmap RJson (call "provideDocumentFormattingEdits" (Some document)
                    (fun st => provideDocumentFormattingEdits st document options))
  | ReqSignatureHelp _ position =>
      fmap RJson (call "provideSignatureHelp" (Some document)
                    (fun st => provideSignatureHelp st document position))
  | ReqCodeAction _ range context =>
      fmap RJson (call "provideCodeActions" (Some document)
                    (fun st => provideCodeActions st document range context))
  | ReqCodeLens _ =>
      referenceCodeLenses <- call "reference.provideCodeLenses" (Some document)
                               (fun st => reference_provideCodeLenses st document) ;;
      testCodeLenses <- call "test.provideCodeLenses" (Some document)
                          (fun st => test_provideCodeLenses st document) ;;
      ret (RCodeLenses (referenceCodeLenses ++ testCodeLenses))
  end.



(** The operations a client can invoke on the server.  [initialize] is left
    out: it records its parameters and the workspace folder and answers the
    static capabilities; it neither reads nor writes the registry, the
    window or the build flag. *)
Inductive Op :=
| OpDidOpen (textDocument : TextDocumentItem)
| OpDidClose (uri : string)
| OpDidChange (uri : string) (version : Z) (contentChanges : list Json)
| OpDidSave (uri : string)
| OpRequest (r : DocRequest)
| OpCodeLensResolve (codeLens : CodeLens)
| OpExecuteCommand (command : string) (arguments : option (list JsValue))
| OpDocumentHighlight (uri : string) (position : Position)
| OpWorkspaceSymbol (query : string).

Definition run (op : Op) : M Response :=
  match op with
  | OpDidOpen textDocument => fmap (fun _ => RVoid) (didOpenTextDocument textDocument)
  | OpDidClose uri => fmap (fun _ => RVoid) (didCloseTextDocument uri)
  | OpDidChange uri version contentChanges =>
      fmap (fun _ => RVoid) (didChangeTextDocument uri version contentChanges)
  | OpDidSave uri => fmap (fun _ => RVoid) (didSaveTextDocument uri)
  | OpRequest r => handle r
  | OpCodeLensResolve codeLens => fmap RCodeLens (codeLensResolve codeLens)
  | OpExecuteCommand command arguments => fmap RJson (executeCommand command arguments)
  | OpDocumentHighlight uri position => fmap RHighlights (documentHighlight uri position)
  | OpWorkspaceSymbol query => fmap RJson (workspaceSymbol query)
  end.

Definition step (st : ServerState) (op : Op) : ServerState := snd (run op st).

(** The state of a server that has processed [ops], oldest first. *)
Definition run_all (ops : list Op) : ServerState := fold_left step ops initial_state.

Definition is_didOpen (op : Op) : bool :=
  match op with OpDidOpen _ => true | _ => false end.

(** The URI whose document an operation resolves through the registry. *)
Definition op_target (op : Op) : option JsValue :=
  match op with
  | OpDidChange uri _ _ | OpDidSave uri => Some (JStr uri)
  | OpRequest r => Some (JStr (request_uri r))
  | OpExecuteCommand _ (Some args) => Some (js_index args (Z.of_nat (length args) - 2))
  | _ => None
  end.

(** ** The shape of reachable sessions

    Documents and editors are only created by [didOpenTextDocument], which
    allocates the [Uri], the document and the editor one after the other;
    no other handler allocates a document or an editor, and
    [didCloseTextDocument] allocates one [Uri] that it never stores. *)
Record well_formed (st : ServerState) : Prop := {
  wf_documents : forall d doc, documents st !! d = Some doc ->
    d = S (uri_oid (doc_uri doc)) /\ d < next_oid st;
  wf_editors : forall e ed, editors st !! e = Some ed ->
    e = S (ed_document ed) /\ e < next_oid st
    /\ is_Some (documents st !! ed_document ed);
  wf_visible : forall e, e ∈ visibleTextEditors (window st) ->
    is_Some (editors st !! e);
  wf_registry : forall uri d, openedDocumentUris st !! uri = Some d ->
    S d ∈ visibleTextEditors (window st);
  wf_active : forall e, activeTextEditor (window st) = Some e ->
    e ∈ visibleTextEditors (window st)
}.

(** What holds of a session, depending on whether a document has been
    opened so far. *)
Definition session_invariant (opened : bool) (st : ServerState) : Prop :=
  well_formed st
  /\ if opened then is_Some (activeTextEditor (window st))
     else activeTextEditor (window st) = None /\ openedDocumentUris st = ∅.

(** ** What an operation may change

    The document an operation resolves through the registry, if any. *)
Definition resolved (st : ServerState) (op : Op) : option Oid :=
  match op_target op with
  | Some (JStr uri) => openedDocumentUris st !! uri
  | _ => None
  end.

Definition is_didClose (op : Op) : bool :=
  match op with OpDidClose _ => true | _ => false end.

Definition is_didSave (op : Op) : bool :=
  match op with OpDidSave _ => true | _ => false end.

(** The updates a handler makes once its document is active: it extends the
    trace without calling the build trigger, mutates the content of a
    document through one of its methods, or sets the selection of an
    editor. *)
Inductive updates (st : ServerState) : ServerState -> Prop :=
| updates_none : updates st st
| updates_trace t st' :
    build_calls t = 0 -> updates st st' -> updates st (append_trace t st')
| updates_body d f st' :
    updates st st' -> updates st (snd (on_body d f st'))
| updates_selection e sel st' :
    updates st st' ->
    updates st (with_editors (alter (fun ed => mkEditor (ed_document ed) sel) e) st').

(** The session in which an operation other than open and close works:
    the session with the resolved document activated. *)
Definition focused (st : ServerState) (op : Op) : ServerState :=
  match resolved st op with
  | Some document => activated document st
  | None => st
  end.

End Server.

(** ** A concrete host, for running the server on examples *)

Module Demo.

(** Documents whose text is ["broken"] make every provider and [save] fail. *)
Definition failure : Thrown := ThrownValue "gocode failed".

Definition body_ok (st : @ServerState (string * Z)) (d : nat) : bool :=
  match documents st !! d with
  | Some doc => negb (String.eqb (fst (doc_body doc)) "broken")
  | None => false
  end.

Definition answer {A} (st : @ServerState (string * Z)) (d : nat) (a : A) : Result A :=
  if body_ok st d then Ok a else Throw failure.

#[export] Instance host : @Collaborators string (string * Z) := {|
  uriToPath := fun uri => uri;
  uriToStringUri := uri_text;
  initial_body := fun item => (item_text item, item_version item);
  body_apply := fun changes version body =>
    if String.eqb (fst body) "broken" then (Throw failure, body)
    else (Ok tt, (String.concat "" (fst body :: changes), version));
  body_save := fun body =>
    if String.eqb (fst body) "broken" then (Throw failure, body) else (Ok tt, body);
  provideDefinition := fun st d _ => answer st d (Some "definition");
  provideDocumentSymbols := fun st d => answer st d [];
  provideCompletionItems := fun st d _ => answer st d ["Println"; "Printf"];
  provideHover := fun st d _ => answer st d "hover";
  provideRenameEdits := fun st d _ _ => answer st d "edits";
  provideReferences := fun st d _ _ => answer st d "references";
  provideDocumentFormattingEdits := fun st d _ => answer st d "formatted";
  provideSignatureHelp := fun st d _ => answer st d "signature";
  provideCodeActions := fun st d _ _ => answer st d "actions";
  reference_provideCodeLenses := fun st d => answer st d [];
  test_provideCodeLenses := fun st d => answer st d [];
  resolveCodeLens := fun st lens => Ok lens;
  provideWorkspaceSymbols := fun st _ => Ok "symbols";
  proposals := ["snippet"];
  commands_executeCommand := fun st _ _ => Ok "done"
|}.

Definition a_go : TextDocumentItem := mkItem "file:///a.go" "go" 1 "package a".
Definition b_go : TextDocumentItem := mkItem "file:///b.go" "go" 1 "package b".
Definition bad_go : TextDocumentItem := mkItem "file:///bad.go" "go" 1 "broken".

Definition origin : Position := mkPosition 0 0.
Definition first_line : Range := mkRange origin (mkPosition 1 0).

Definition hover_a : @Op string := OpRequest (ReqHover "file:///a.go" origin).


(** A second host, whose outline and code-lens providers answer something. *)
Definition main_symbol : @SymbolInformation string :=
  mkSymbol "func main" first_line (Some (mkLocation first_line "file:///elsewhere.go")).

Definition references_lens : CodeLens := mkCodeLens first_line (Some "references") None.
Definition run_test_lens : CodeLens := mkCodeLens first_line (Some "run test") None.

Definition outline_host : @Collaborators string (string * Z) := {|
  uriToPath := fun uri => uri;
  uriToStringUri := uri_text;
  initial_body := fun item => (item_text item, item_version item);
  body_apply := fun changes version body =>
    (Ok tt, (String.concat "" (fst body :: changes), version));
  body_save := fun body => (Ok tt, body);
  provideDefinition := fun st d _ => Ok None;
  provideDocumentSymbols := fun st d => Ok [main_symbol];
  provideCompletionItems := fun st d _ => Ok [];
  provideHover := fun st d _ => Ok "hover";
  provideRenameEdits := fun st d _ _ => Ok "edits";
  provideReferences := fun st d _ _ => Ok "references";
  provideDocumentFormattingEdits := fun st d _ => Ok "formatted";
  provideSignatureHelp := fun st d _ => Ok "signature";
  provideCodeActions := fun st d _ _ => Ok "actions";
  reference_provideCodeLenses := fun st d => answer st d [references_lens];
  test_provideCodeLenses := fun st d => Ok [run_test_lens];
  resolveCodeLens := fun st lens => Ok lens;
  provideWorkspaceSymbols := fun st _ => Ok "symbols";
  proposals := [];
  commands_executeCommand := fun st _ _ => Throw failure
|}.



End Demo.

(** * Properties *)

(** Case analysis on the innermost scrutinee of the goal: the outcome of a
    provider, a store lookup, a test. *)
Ltac case_innermost :=
  match goal with
  | |- context [match ?x with _ => _ end] =>
      lazymatch x with
      | context [match _ with _ => _ end] => fail
      | _ => destruct x eqn:?; cbn
      end
  end.

(** Read the fields of a state behind a chain of field updates. *)
Ltac state_fields :=
  cbn [openedDocumentUris hasStartedInitialBuild window documents editors
       next_oid trace visibleTextEditors activeTextEditor
       add_event append_trace with_flag with_window with_editors
       with_documents with_registry with_next_oid].

Section Properties.

Context {Json DocBody : Type} {host : @Collaborators Json DocBody}.

Implicit Types (st : @ServerState DocBody) (uri : string) (document : nat).

(** Two states are equal when their fields are. *)
Lemma state_ext st1 st2 :
  openedDocumentUris st1 = openedDocumentUris st2 ->
  hasStartedInitialBuild st1 = hasStartedInitialBuild st2 ->
  window st1 = window st2 ->
  documents st1 = documents st2 ->
  editors st1 = editors st2 ->
  next_oid st1 = next_oid st2 ->
  trace st1 = trace st2 ->
  st1 = st2.
Proof. destruct st1, st2. cbn. congruence. Qed.

(** ** The dispatch pipeline *)

Lemma getOpenDocument_absent st uri :
  openedDocumentUris st !! uri = None ->
  getOpenDocument (JStr uri) st = (Throw (DocumentNotOpen (JStr uri)), st).
Proof. intros Hreg. unfold getOpenDocument, bind, get. cbn. now rewrite Hreg. Qed.

Lemma getOpenDocument_present st uri document :
  openedDocumentUris st !! uri = Some document ->
  getOpenDocument (JStr uri) st = (Ok document, st).
Proof. intros Hreg. unfold getOpenDocument, bind, get. cbn. now rewrite Hreg. Qed.

Lemma activateEditor_no_selection document st :
  activateEditor document JUndefined st = (Ok document, activated document st).
Proof. reflexivity. Qed.

Lemma executeOnDocument_absent {T} service uri (lambda : nat -> M T) st :
  openedDocumentUris st !! uri = None ->
  executeOnDocument service uri lambda st
  = (Throw (DocumentNotOpen (JStr uri)),
     add_event (EvLog service (Some (uriToPath uri))) st).
Proof.
  intros Hreg.
  unfold executeOnDocument, bind, log, emit, modify, getOpenDocument, get. cbn.
  now rewrite Hreg.
Qed.

Lemma executeOnDocument_present {T} service uri (lambda : nat -> M T) st document :
  openedDocumentUris st !! uri = Some document ->
  executeOnDocument service uri lambda st
  = match lambda document (entered service uri document st) with
    | (Ok a, st') => (Ok (Ok a), st')
    | (Throw e, st') =>
        (Ok (Throw (ThrownResponseError InvalidRequest (thrown_to_string e) e)),
         add_event (EvShowMessage (mkShow e MTError)) st')
    end.
Proof.
  intros Hreg.
  unfold executeOnDocument, bind, log, emit, modify, getOpenDocument, get. cbn.
  rewrite Hreg. cbn. unfold settle, catch, entered, activated. cbn.
  destruct (lambda document _) as [[a|e] st']; reflexivity.
Qed.

(** Every request handler is the pipeline applied to its lambda. *)
Lemma handle_pipeline (r : DocRequest) st :
  handle r st
  = await (executeOnDocument (service_name r) (request_uri r) (delegate r)) st.
Proof.
  destruct r; cbn [handle service_name request_uri];
    unfold definition, documentSymbol, completion, hover, rename, references,
      documentFormatting, signatureHelp, codeAction, codeLens, fmap, await, bind;
    destruct (openedDocumentUris st !! uri) as [d|] eqn:Hreg.
  all: try (rewrite !executeOnDocument_absent by exact Hreg; reflexivity).
  all: rewrite !(executeOnDocument_present _ _ _ _ d) by exact Hreg.
  all: cbn [delegate]; unfold fmap, bind, call, ret, get, throw; cbn.
  all: repeat case_innermost; reflexivity.
Qed.

Lemma append_trace_nil st : append_trace [] st = st.
Proof. destruct st. unfold append_trace. cbn. now rewrite app_nil_r. Qed.

Lemma add_event_append e st : add_event e st = append_trace [e] st.
Proof. reflexivity. Qed.

Lemma append_trace_append t u st :
  append_trace u (append_trace t st) = append_trace (t ++ u) st.
Proof. unfold append_trace. cbn. now rewrite app_assoc. Qed.

Lemma notifications_app (t u : list Event) :
  notifications (t ++ u) = notifications t ++ notifications u.
Proof. unfold notifications. apply omap_app. Qed.

Lemma build_calls_app (t u : list Event) :
  build_calls (t ++ u) = build_calls t + build_calls u.
Proof. unfold build_calls. now rewrite List.filter_app, length_app. Qed.

(** A lambda only calls providers: it leaves the session as it is and adds
    neither notifications nor builds to the trace. *)
Lemma delegate_effects (r : DocRequest) document st :
  exists t, snd (delegate r document st) = append_trace t st
            /\ notifications t = [] /\ build_calls t = 0.
Proof.
  destruct r; cbn [delegate]; unfold fmap, bind, call, ret, get, throw; cbn;
    repeat case_innermost; rewrite ?add_event_append, ?append_trace_append; cbn;
    eexists; (split; [reflexivity | split; reflexivity]).
Qed.




(** ** Lookup *)

Lemma didClose_registry uri st :
  openedDocumentUris (snd (didCloseTextDocument uri st))
  = delete uri (openedDocumentUris st).
Proof.
  unfold didCloseTextDocument, bind, log, emit, modify, Uri_parse, fresh, get, ret.
  cbn -[Nat.ltb first_index_from]. case_innermost; reflexivity.
Qed.

(** C5. A URI that is absent from the registry (as every URI is at start,
    and as a URI is once it has been closed) makes the lookup throw the
    document-not-open error, and with it every operation that resolves its
    document through the registry; a URI that is present makes the lookup
    return the registered document. *)
Theorem lookup_follows_registry st uri :
  openedDocumentUris (@initial_state DocBody) !! uri = None
  /\ openedDocumentUris (snd (didCloseTextDocument uri st)) !! uri = None
  /\ (openedDocumentUris st !! uri = None ->
      getOpenDocument (JStr uri) st = (Throw (DocumentNotOpen (JStr uri)), st)
      /\ forall op, op_target op = Some (JStr uri) ->
           fst (run op st) = Throw (DocumentNotOpen (JStr uri)))
  /\ (forall document, openedDocumentUris st !! uri = Some document ->
      getOpenDocument (JStr uri) st = (Ok document, st)).
Proof.
  split; [reflexivity|].
  split; [rewrite didClose_registry; apply lookup_delete_eq|].
  split; [|intros d Hreg; now apply getOpenDocument_present].
  intros Hreg. split; [now apply getOpenDocument_absent|].
  intros op Htarget. destruct op as [| | u v c | u | r | | c [args|] | |];
    cbn in Htarget; try discriminate; unfold run, fmap, bind.
  - injection Htarget as ->. unfold didChangeTextDocument, bind.
    now rewrite executeOnDocument_absent.
  - injection Htarget as ->. unfold didSaveTextDocument, bind.
    now rewrite executeOnDocument_absent.
  - injection Htarget as Huri. rewrite handle_pipeline. unfold await.
    rewrite executeOnDocument_absent; rewrite Huri; [reflexivity | exact Hreg].
  - injection Htarget as Huri.
    unfold executeCommand, bind, log, emit, modify, getOpenDocument, get. cbn.
    rewrite Huri, Hreg. reflexivity.
Qed.

(** ** Saving *)

(** What [didSaveTextDocument] does when the document is registered and
    stored. *)
Lemma didSave_registered st uri document doc :
  openedDocumentUris st !! uri = Some document ->
  documents st !! document = Some doc ->
  exists st_saved,
    documents st_saved !! document
      = Some (mkDoc (doc_uri doc) (snd (body_save (doc_body doc))))
    /\ trace st_saved
       = trace st ++ [EvLog "onDidSaveTextDocument" (Some (uriToPath uri));
                      EvDocSave document]
    /\ didSaveTextDocument uri st
       = (Ok tt, match fst (body_save (doc_body doc)) with
                 | Ok _ => add_event (EvBuild false) st_saved
                 | Throw e => add_event (EvShowMessage (mkShow e MTError)) st_saved
                 end)
    /\ build_calls (trace (snd (didSaveTextDocument uri st)))
       = build_calls (trace st)
         + (if is_ok (fst (body_save (doc_body doc))) then 1 else 0).
Proof.
  intros Hreg Hdoc. unfold didSaveTextDocument, bind.
  rewrite (executeOnDocument_present _ _ _ _ document) by exact Hreg.
  unfold document_save, on_body, bind, emit, modify. cbn.
  rewrite Hdoc.
  exists (with_documents
            <[document := mkDoc (doc_uri doc) (snd (body_save (doc_body doc)))]>
            (add_event (EvDocSave document)
               (entered "onDidSaveTextDocument" uri document st))).
  split; [apply lookup_insert_eq|].
  split; [cbn; now rewrite <- app_assoc|].
  destruct (body_save (doc_body doc)) as [[[]|e] body]; cbn;
    (split; [reflexivity|]);
    unfold build_calls; rewrite !List.filter_app, !length_app; cbn; lia.
Qed.

(** ** Requests outside the pipeline *)

(** C8. [documentHighlight] answers the empty list on every input and in
    every session, also when reached through the dispatch table; it never
    throws, and all it does is log: the registry, the window and the stores
    are not touched and no provider is called. *)
Theorem documentHighlight_empty st uri (position : Position) :
  @documentHighlight Json DocBody uri position st
  = (Ok [], add_event (EvLog "documentHighlight" None) st)
  /\ fst (run (OpDocumentHighlight uri position) st) = Ok (RHighlights [])
  /\ trace (step st (OpDocumentHighlight uri position))
     = trace st ++ [EvLog "documentHighlight" None]
  /\ forall st' uri' (position' : Position),
       fst (@documentHighlight Json DocBody uri' position' st')
       = fst (@documentHighlight Json DocBody uri position st).
Proof.
  split; [reflexivity|].
  split; [reflexivity|].
  split; [reflexivity|].
  intros st' uri' position'. reflexivity.
Qed.

(** C9. A completion request on an open document whose provider answers
    [provided] returns a complete list: the provider's items followed by the
    snippet proposals. *)
Theorem completion_appends_proposals st uri (position : Position) document provided :
  openedDocumentUris st !! uri = Some document ->
  provideCompletionItems (entered "completion" uri document st) document position
    = Ok provided ->
  fst (completion uri position st)
  = Ok {| isIncomplete := false; items := provided ++ proposals |}.
Proof.
  intros Hreg Hitems. unfold completion, await.
  rewrite (executeOnDocument_present _ _ _ _ document) by exact Hreg.
  unfold bind, call, ret. now rewrite Hitems.
Qed.

Lemma codeLensResolve_effects st (codeLens : CodeLens) :
  exists t, snd (codeLensResolve codeLens st) = append_trace t st
            /\ notifications t = [].
Proof.
  unfold codeLensResolve, bind, get, call, throw. cbn.
  destruct (activeTextEditor (window st) ≫= editor_document st) as [d|]; cbn.
  - exists [EvProvider "resolveCodeLens" (Some d)]. split; reflexivity.
  - exists []. now rewrite append_trace_nil.
Qed.

(** C10. [codeLensResolve] neither looks the lens's document up nor
    activates an editor nor reports errors: it leaves the session alone,
    sends no notification, and answers whatever the reference code-lens
    provider answers (its error included, as it is) for the lens with its
    document replaced by the document of the active editor; without an
    active editor the property read fails. *)
Theorem codeLensResolve_uses_active_editor st (codeLens : CodeLens) :
  (exists t, snd (codeLensResolve codeLens st) = append_trace t st
             /\ notifications t = [])
  /\ match activeTextEditor (window st) ≫= editor_document st with
     | Some document =>
         codeLensResolve codeLens st
         = (resolveCodeLens st (mkCodeLens (lens_range codeLens)
                                           (lens_command codeLens) (Some document)),
            add_event (EvProvider "resolveCodeLens" (Some document)) st)
     | None => exists what, fst (codeLensResolve codeLens st)
                            = Throw (ThrownTypeError what)
     end.
Proof.
  split; [apply codeLensResolve_effects|].
  unfold codeLensResolve, bind, get, call, throw. cbn.
  destruct (activeTextEditor (window st) ≫= editor_document st) as [d|]; cbn;
    [reflexivity | eexists; reflexivity].
Qed.

(** ** Opening *)

Lemma didOpen_state (textDocument : TextDocumentItem) st :
  didOpenTextDocument textDocument st
  = (Ok tt,
     let n := next_oid st in
     mkState (<[item_uri textDocument := S n]> (openedDocumentUris st))
             true
             (mkWindow (visibleTextEditors (window st) ++ [S (S n)]) (Some (S (S n))))
             (<[S n := mkDoc (mkUri n (item_uri textDocument))
                             (initial_body textDocument)]> (documents st))
             (<[S (S n) := mkEditor (S n) None]> (editors st))
             (S (S (S n)))
             (trace st ++ [EvLog "onDidOpenTextDocument"
                             (Some (uriToPath (item_uri textDocument)));
                           EvBuild false])).
Proof.
  unfold didOpenTextDocument, new_TextDocument, new_TextEditor, Uri_parse, fresh,
    buildCode, log, emit, modify, bind, get, ret.
  cbv beta zeta. f_equal. apply state_ext; state_fields; try reflexivity.
  now rewrite <- app_assoc.
Qed.

(** ** Reachable sessions *)

Lemma js_find_unique {A} (p : A -> bool) (l : list A) (x : A) :
  x ∈ l -> p x = true -> (forall y, y ∈ l -> p y = true -> y = x) ->
  js_find p l = Some x.
Proof.
  induction l as [|y l IH]; intros Hin Hp Huniq.
  - now apply not_elem_of_nil in Hin.
  - cbn. destruct (p y) eqn:Hy.
    + f_equal. apply Huniq; [left | exact Hy].
    + apply IH; [| exact Hp | intros z Hz; apply Huniq; now right].
      apply elem_of_cons in Hin as [->|Hin]; [congruence | exact Hin].
Qed.

Lemma first_index_from_none {A} (p : A -> bool) (l : list A) (i : nat) :
  (forall y, y ∈ l -> p y = false) -> first_index_from p l i = i + length l.
Proof.
  revert i. induction l as [|y l IH]; intros i Hnone; cbn; [lia|].
  rewrite Hnone by left. rewrite IH by (intros z Hz; apply Hnone; now right). lia.
Qed.

(** The index at which the loop of [didCloseTextDocument] stops never
    exceeds the length, and the editors before it do not match. *)
Lemma first_index_from_bound {A} (p : A -> bool) (l : list A) (i : nat) :
  i <= first_index_from p l i <= i + length l.
Proof.
  revert i. induction l as [|y l IH]; intros i; cbn; [lia|].
  destruct (p y); [lia|]. specialize (IH (S i)). lia.
Qed.

Section WellFormed.

Variable st : @ServerState DocBody.
Hypothesis wf : well_formed st.

(** In a well-formed session the editor of a registered document is the
    only visible editor whose document has the identical [Uri]. *)
Lemma find_editor_of uri document :
  openedDocumentUris st !! uri = Some document ->
  js_find (fun editor =>
      identical (editor_document_uri st editor) (document_uri st document))
    (visibleTextEditors (window st)) = Some (S document).
Proof.
  intros Hreg. pose proof (wf_registry _ wf _ _ Hreg) as Hvis.
  destruct (wf_visible _ wf _ Hvis) as [ed Hed].
  destruct (wf_editors _ wf _ _ Hed) as (Heq & _ & [doc Hdoc]).
  injection Heq as Heq. subst document.
  apply js_find_unique; [exact Hvis | |].
  - unfold editor_document_uri, editor_document, document_uri.
    rewrite Hed. cbn. rewrite Hdoc. cbn. apply Nat.eqb_refl.
  - intros y Hy. unfold editor_document_uri, editor_document, document_uri.
    rewrite Hdoc. cbn.
    destruct (wf_visible _ wf _ Hy) as [ed' Hed']. rewrite Hed'. cbn.
    destruct (wf_editors _ wf _ _ Hed') as (Heq' & _ & [doc' Hdoc']).
    rewrite Hdoc'. cbn. unfold uri_identical. intros Hsame%Nat.eqb_eq.
    destruct (wf_documents _ wf _ _ Hdoc) as [-> _].
    destruct (wf_documents _ wf _ _ Hdoc') as [Hd' _].
    rewrite Heq', Hd', Hsame. reflexivity.
Qed.

(** A [Uri] that has just been parsed is identical to the [Uri] of no
    visible editor's document. *)
Lemma parsed_uri_matches_nothing (st' : @ServerState DocBody) text editor :
  documents st' = documents st -> editors st' = editors st ->
  editor ∈ visibleTextEditors (window st) ->
  identical (editor_document_uri st' editor) (Some (mkUri (next_oid st) text))
  = false.
Proof.
  intros Hdocs Heds Hvis.
  unfold editor_document_uri, editor_document, document_uri. rewrite Hdocs, Heds.
  destruct (wf_visible _ wf _ Hvis) as [ed Hed]. rewrite Hed. cbn.
  destruct (wf_editors _ wf _ _ Hed) as (_ & _ & [doc Hdoc]). rewrite Hdoc. cbn.
  destruct (wf_documents _ wf _ _ Hdoc) as [Hd Hlt].
  unfold uri_identical. cbn. apply Nat.eqb_neq. lia.
Qed.

End WellFormed.

(** *** Each primitive update keeps the invariant *)

Lemma inv_trace b t st :
  session_invariant b st -> session_invariant b (append_trace t st).
Proof.
  intros [[] Hact]. split; [constructor; assumption | exact Hact].
Qed.

Lemma inv_event b e st :
  session_invariant b st -> session_invariant b (add_event e st).
Proof. rewrite add_event_append. apply inv_trace. Qed.

Lemma activated_registered st uri document :
  well_formed st -> openedDocumentUris st !! uri = Some document ->
  activated document st
  = with_window (fun w => mkWindow (visibleTextEditors w) (Some (S document))) st.
Proof.
  intros wf Hreg. unfold activated. now rewrite (find_editor_of st wf uri).
Qed.

Lemma inv_activated b st uri document :
  session_invariant b st -> openedDocumentUris st !! uri = Some document ->
  session_invariant true (activated document st).
Proof.
  intros [wf _] Hreg. rewrite (activated_registered st uri) by assumption.
  pose proof (wf_registry _ wf _ _ Hreg) as Hvis. destruct wf.
  split; [constructor; cbn; try assumption | cbn; eauto].
  intros e [= <-]. exact Hvis.
Qed.

Lemma inv_on_body b document f st :
  session_invariant b st -> session_invariant b (snd (on_body document f st)).
Proof.
  intros [wf Hact]. unfold on_body.
  destruct (documents st !! document) as [doc|] eqn:Hdoc; [|now split].
  destruct (f (doc_body doc)) as [r body]. split; [|exact Hact].
  destruct wf as [Hdocs Heds Hvis Hreg Hactive].
  constructor; cbn; try assumption.
  - intros d doc'. destruct (decide (document = d)) as [<-|Hne].
    + rewrite lookup_insert_eq. intros [= <-]. cbn. eauto.
    + rewrite lookup_insert_ne by exact Hne. apply Hdocs.
  - intros e ed Hed. destruct (Heds e ed Hed) as (? & ? & Hsome).
    repeat split; try assumption. now apply lookup_insert_is_Some'; right.
Qed.

Lemma inv_selection b editor selection st :
  session_invariant b st ->
  session_invariant b
    (with_editors (alter (fun e => mkEditor (ed_document e) selection) editor) st).
Proof.
  intros [wf Hact]. split; [|exact Hact].
  destruct wf as [Hdocs Heds Hvis Hreg Hactive].
  constructor; cbn; try assumption.
  - intros e ed. destruct (decide (editor = e)) as [<-|Hne].
    + rewrite lookup_alter_eq. destruct (editors st !! editor) as [ed0|] eqn:Hed0;
        [|discriminate]. cbn. intros [= <-]. cbn. now apply Heds.
    + rewrite lookup_alter_ne by exact Hne. apply Heds.
  - intros e He. apply lookup_alter_is_Some. now apply Hvis.
Qed.

(** *** Closing *)

(** Whatever the session, closing either leaves the visible list as it is
    or cuts it off at the index where the loop stopped. *)
Lemma didClose_visible uri st :
  exists i, i <= length (visibleTextEditors (window st))
    /\ visibleTextEditors (window (snd (didCloseTextDocument uri st)))
       = take i (visibleTextEditors (window st)).
Proof.
  unfold didCloseTextDocument, bind, log, emit, modify, Uri_parse, fresh, get, ret.
  cbn -[Nat.ltb first_index_from].
  match goal with |- context [first_index_from ?p ?l 0] =>
    pose proof (first_index_from_bound p l 0) as Hbound;
    destruct (Nat.ltb_spec (first_index_from p l 0) (length l)) as [Hlt|Hge]
  end; cbn.
  - eexists. split; [|reflexivity]. lia.
  - exists (length (visibleTextEditors (window st))). split; [lia|].
    now rewrite firstn_all.
Qed.

(** In a well-formed session the comparison with the freshly parsed [Uri]
    never succeeds: closing only unregisters the document. *)
Lemma didClose_state uri st :
  well_formed st ->
  didCloseTextDocument uri st
  = (Ok tt,
     with_next_oid (S (next_oid st))
       (with_registry (delete uri)
          (add_event (EvLog "onDidCloseTextDocument" (Some (uriToPath uri))) st))).
Proof.
  intros wf.
  unfold didCloseTextDocument, bind, log, emit, modify, Uri_parse, fresh, get, ret.
  cbn -[Nat.ltb first_index_from].
  rewrite first_index_from_none.
  - cbn -[Nat.ltb]. now rewrite Nat.ltb_irrefl.
  - intros editor Hvis. now apply (parsed_uri_matches_nothing st wf).
Qed.

Lemma inv_close b uri st :
  session_invariant b st ->
  session_invariant b (snd (didCloseTextDocument uri st)).
Proof.
  intros [wf Hact]. rewrite didClose_state by exact wf. cbn.
  split.
  - destruct wf as [Hdocs Heds Hvis Hreg Hactive]. constructor; cbn; try assumption.
    + intros d doc Hd. destruct (Hdocs d doc Hd). split; [assumption | lia].
    + intros e ed He. destruct (Heds e ed He) as (? & ? & ?).
      repeat split; [assumption | lia | assumption].
    + intros u d [_ Hd]%lookup_delete_Some. now apply (Hreg u).
  - destruct b; cbn; [exact Hact|]. destruct Hact as [Hnone Hempty].
    split; [exact Hnone|]. rewrite Hempty. apply delete_empty.
Qed.

(** *** Opening *)

Lemma inv_open b textDocument st :
  session_invariant b st ->
  session_invariant true (snd (didOpenTextDocument textDocument st)).
Proof.
  intros [wf _]. rewrite didOpen_state. cbn.
  destruct wf as [Hdocs Heds Hvis Hreg Hactive].
  split; [constructor; cbn | cbn; eauto].
  - intros d doc. destruct (decide (S (next_oid st) = d)) as [<-|Hne].
    + rewrite lookup_insert_eq. intros [= <-]. cbn. split; [reflexivity | lia].
    + rewrite lookup_insert_ne by exact Hne. intros Hd.
      destruct (Hdocs d doc Hd). split; [assumption | lia].
  - intros e ed. destruct (decide (S (S (next_oid st)) = e)) as [<-|Hne].
    + rewrite lookup_insert_eq. intros [= <-]. cbn.
      repeat split; [lia|]. rewrite lookup_insert_eq. eauto.
    + rewrite lookup_insert_ne by exact Hne. intros He.
      destruct (Heds e ed He) as (? & ? & ?).
      repeat split; [assumption | lia |]. apply lookup_insert_is_Some'. now right.
  - intros e [He|He%list_elem_of_singleton]%elem_of_app.
    + apply lookup_insert_is_Some'. right. now apply Hvis.
    + subst e. rewrite lookup_insert_eq. eauto.
  - intros u d. destruct (decide (item_uri textDocument = u)) as [<-|Hne].
    + rewrite lookup_insert_eq. intros [= <-]. apply elem_of_app. right.
      now apply list_elem_of_singleton.
    + rewrite lookup_insert_ne by exact Hne. intros Hd.
      apply elem_of_app. left. now apply (Hreg u).
  - intros e [= <-]. apply elem_of_app. right. now apply list_elem_of_singleton.
Qed.

(** *** The pipeline and the handlers *)

Lemma inv_activated_any b st uri document :
  session_invariant b st -> openedDocumentUris st !! uri = Some document ->
  session_invariant b (activated document st).
Proof.
  intros Hinv Hreg. destruct b; [now apply (inv_activated true st uri)|].
  destruct Hinv as [_ [_ Hempty]]. rewrite Hempty, lookup_empty in Hreg.
  discriminate.
Qed.

Lemma inv_executeOnDocument {T} b service uri (lambda : nat -> M T) st :
  (forall d s, session_invariant b s -> session_invariant b (snd (lambda d s))) ->
  session_invariant b st ->
  session_invariant b (snd (executeOnDocument service uri lambda st)).
Proof.
  intros Hlambda Hinv.
  destruct (openedDocumentUris st !! uri) as [d|] eqn:Hreg.
  - rewrite (executeOnDocument_present _ _ _ _ d) by exact Hreg.
    assert (session_invariant b (entered service uri d st)) as Hentered.
    { apply (inv_activated_any b _ uri); [now apply inv_event | exact Hreg]. }
    specialize (Hlambda d _ Hentered).
    destruct (lambda d _) as [[a|e] st']; cbn in *; [assumption|].
    now apply inv_event.
  - rewrite executeOnDocument_absent by exact Hreg. now apply inv_event.
Qed.

Lemma inv_handle b (r : DocRequest) st :
  session_invariant b st -> session_invariant b (snd (handle r st)).
Proof.
  intros Hinv. rewrite handle_pipeline. unfold await.
  pose proof (inv_executeOnDocument b (service_name r) (request_uri r)
                (delegate r) st) as Hpipe.
  destruct (executeOnDocument _ _ _ st) as [[res|e] st'] eqn:Hrun; cbn in *;
    apply Hpipe; try exact Hinv;
    intros d s Hs; destruct (delegate_effects r d s) as (t & -> & _);
    now apply inv_trace.
Qed.

(** With a registered document, activation finds its editor and gives it
    the selection when one is supplied. *)
Lemma activateEditor_state st uri document (selection : JsValue) :
  well_formed st -> openedDocumentUris st !! uri = Some document ->
  activateEditor document selection st
  = (Ok document,
     if truthy selection
     then with_editors (alter (fun e =>
            mkEditor (ed_document e)
                     (Some (mkSelection (js_start selection) (js_end selection))))
            (S document)) (activated document st)
     else activated document st).
Proof.
  intros wf Hreg. unfold activateEditor, bind, get, modify, ret, throw. cbn.
  unfold activated. rewrite (find_editor_of st wf uri document Hreg).
  destruct (truthy selection); reflexivity.
Qed.

#[local] Arguments activateEditor : simpl never.

Lemma inv_executeCommand b command arguments st :
  session_invariant b st ->
  session_invariant b (snd (executeCommand command arguments st)).
Proof.
  intros Hinv. unfold executeCommand, bind, log, emit, modify. cbn.
  destruct arguments as [args|]; [|now apply inv_event].
  set (st1 := add_event (EvLog "executeCommand" None) st).
  assert (session_invariant b st1) as Hinv1 by now apply inv_event.
  unfold getOpenDocument, bind, get. cbn.
  destruct (js_index args (Z.of_nat (length args) - 2)) as [| | | |uri|];
    try exact Hinv1.
  destruct (openedDocumentUris st !! uri) as [d|] eqn:Hreg; [|exact Hinv1].
  cbn. rewrite (activateEditor_state st1 uri d) by (apply Hinv1 || exact Hreg).
  cbn. apply inv_event.
  assert (session_invariant b (activated d st1)) as Hact
    by (apply (inv_activated_any b st1 uri); [exact Hinv1 | exact Hreg]).
  destruct (truthy _); [now apply inv_selection | exact Hact].
Qed.

Lemma inv_step b (op : Op) st :
  session_invariant b st -> session_invariant (b || is_didOpen op) (step st op).
Proof.
  intros Hinv. unfold step, run.
  destruct op as [textDocument | uri | uri version contentChanges | uri | r
                 | lens | command arguments | uri position | query];
    cbn [is_didOpen]; rewrite ?orb_false_r, ?orb_true_r; unfold fmap, bind.
  - pose proof (inv_open b textDocument st Hinv) as H.
    destruct (didOpenTextDocument _ st) as [[]]; exact H.
  - pose proof (inv_close b uri st Hinv) as H.
    destruct (didCloseTextDocument _ st) as [[]]; exact H.
  - unfold didChangeTextDocument, bind.
    pose proof (inv_executeOnDocument b "onDidCloseTextDocument" uri
      (fun document => document_apply document contentChanges version) st) as H.
    assert (forall d s, session_invariant b s ->
              session_invariant b
                (snd (document_apply d contentChanges version s))) as Happly.
    { intros d s Hs. unfold document_apply, bind, emit, modify. cbn.
      apply inv_on_body. now apply inv_event. }
    specialize (H Happly Hinv).
    destruct (executeOnDocument _ _ _ st) as [[res|e] st']; exact H.
  - unfold didSaveTextDocument, bind.
    pose proof (inv_executeOnDocument b "onDidSaveTextDocument" uri
      (fun document => document_save document) st) as H.
    assert (forall d s, session_invariant b s ->
              session_invariant b (snd (document_save d s))) as Hsave.
    { intros d s Hs. unfold document_save, bind, emit, modify. cbn.
      apply inv_on_body. now apply inv_event. }
    specialize (H Hsave Hinv).
    destruct (executeOnDocument _ _ _ st) as [[[]|] st']; cbn in *;
      try exact H. now apply inv_event.
  - pose proof (inv_handle b r st Hinv) as H.
    destruct (handle r st) as [[]]; exact H.
  - destruct (codeLensResolve_effects st lens) as (t & Ht & _).
    destruct (codeLensResolve lens st) as [[] st']; cbn in *; subst st';
      now apply inv_trace.
  - pose proof (inv_executeCommand b command arguments st Hinv) as H.
    destruct (executeCommand _ _ st) as [[]]; exact H.
  - cbn. now apply inv_event.
  - unfold workspaceSymbol, bind, log, emit, modify, call. cbn.
    destruct (provideWorkspaceSymbols _ _); cbn; now do 2 apply inv_event.
Qed.

Lemma inv_initial : session_invariant false (@initial_state DocBody).
Proof.
  split; [constructor; cbn | split; reflexivity];
    intros *; rewrite ?lookup_empty; try discriminate.
  intros Hin. now apply not_elem_of_nil in Hin.
Qed.

Lemma inv_fold (ops : list Op) b st :
  session_invariant b st ->
  session_invariant (b || existsb is_didOpen ops) (fold_left step ops st).
Proof.
  revert b st. induction ops as [|op ops IH]; intros b st Hinv; cbn.
  - now rewrite orb_false_r.
  - rewrite orb_assoc. apply IH. now apply inv_step.
Qed.

Lemma inv_run_all (ops : list Op) :
  session_invariant (existsb is_didOpen ops) (run_all ops).
Proof. apply (inv_fold ops false), inv_initial. Qed.

(** C3. In the session reached by any sequence of operations there is no
    active editor as long as no document has been opened, and once a
    document has been opened there is one: the active-editor pointer holds an
    editor object, which is one of the visible editors. *)
Theorem active_editor_once_opened (ops : list Op) :
  match activeTextEditor (window (run_all ops)) with
  | None => existsb is_didOpen ops = false
  | Some editor =>
      existsb is_didOpen ops = true
      /\ editor ∈ visibleTextEditors (window (run_all ops))
      /\ is_Some (editors (run_all ops) !! editor)
  end.
Proof.
  destruct (inv_run_all ops) as [wf Hact].
  destruct (existsb is_didOpen ops).
  - destruct Hact as [editor Heditor]. rewrite Heditor.
    pose proof (wf_active _ wf _ Heditor) as Hvis.
    split; [reflexivity|]. split; [exact Hvis|]. now apply (wf_visible _ wf).
  - destruct Hact as [-> _]. reflexivity.
Qed.

(** What [executeCommand] does in a well-formed session when the
    second-to-last argument names a registered document. *)
Lemma executeCommand_registered st command (a b : JsValue) uri (range : Range)
    document :
  well_formed st ->
  openedDocumentUris st !! uri = Some document ->
  exists st_active,
    activeTextEditor (window st_active) = Some (S document)
    /\ S document ∈ visibleTextEditors (window st_active)
    /\ editors st_active !! S document
       = Some (mkEditor document
                 (Some (mkSelection (Some (range_start range))
                                    (Some (range_end range)))))
    /\ trace st_active = trace st ++ [EvLog "executeCommand" None]
    /\ executeCommand command (Some [a; b; JStr uri; JRange range]) st
       = (commands_executeCommand st_active command [a; b],
          add_event (EvCommand command [a; b]) st_active).
Proof.
  intros wf Hreg.
  pose proof (wf_registry _ wf _ _ Hreg) as Hvis.
  destruct (wf_visible _ wf _ Hvis) as [ed Hed].
  destruct (wf_editors _ wf _ _ Hed) as ([= Hdoc] & _).
  assert (well_formed (add_event (EvLog "executeCommand" None) st)) as wf1
    by (destruct wf; constructor; assumption).
  pose proof (activateEditor_state _ uri document (JRange range) wf1 Hreg) as Hact.
  rewrite (activated_registered _ uri) in Hact by assumption. cbn in Hact.
  eexists. repeat split; cycle 4.
  - unfold executeCommand, bind, log, emit, modify. cbn.
    unfold getOpenDocument, bind, get. cbn.
    change (js_index [a; b; JStr uri; JRange range] (Z.of_nat 4 - 2))
      with (JStr uri).
    change (js_index [a; b; JStr uri; JRange range] (Z.of_nat 4 - 1))
      with (JRange range).
    cbn. rewrite Hreg. cbn. rewrite Hact. cbn. reflexivity.
  - reflexivity.
  - exact Hvis.
  - cbn. rewrite lookup_alter_eq, Hed. cbn. now rewrite <- Hdoc.
  - reflexivity.
Qed.

(** C6. In a reachable session where [uri] names an open document,
    [executeCommand] with arguments [[a, b, uri, range]] makes the editor of
    that document the active one and sets its selection to [range]; the
    command then runs in that session and receives exactly [[a, b]]. *)
Theorem executeCommand_reactivates (ops : list Op) command (a b : JsValue)
    uri (range : Range) document :
  openedDocumentUris (run_all ops) !! uri = Some document ->
  exists editor st_active,
    activeTextEditor (window st_active) = Some editor
    /\ editor ∈ visibleTextEditors (window st_active)
    /\ editors st_active !! editor
       = Some (mkEditor document
                 (Some (mkSelection (Some (range_start range))
                                    (Some (range_end range)))))
    /\ trace st_active = trace (run_all ops) ++ [EvLog "executeCommand" None]
    /\ executeCommand command (Some [a; b; JStr uri; JRange range]) (run_all ops)
       = (commands_executeCommand st_active command [a; b],
          add_event (EvCommand command [a; b]) st_active).
Proof.
  intros Hreg. destruct (inv_run_all ops) as [wf _].
  exists (S document).
  exact (executeCommand_registered _ command a b uri range document wf Hreg).
Qed.

(** ** Builds on open *)

(** Every [didOpen] calls the build trigger, whatever the value of
    [hasStartedInitialBuild]: the flag is written and never read back. *)
Lemma didOpen_always_builds (textDocument : TextDocumentItem) st :
  build_calls (trace (snd (didOpenTextDocument textDocument st)))
  = S (build_calls (trace st)).
Proof.
  rewrite didOpen_state. cbn [snd trace]. rewrite build_calls_app. cbn. lia.
Qed.

(** ** Saving, in a reachable session *)

(** C7. A [didSave] on an open document runs [document.save()] first; the
    build trigger is called once, as the last thing and in the session that
    already holds the saved content, when the save succeeds, and is not
    called at all when the save fails. *)
Theorem build_after_save (ops : list Op) uri document :
  openedDocumentUris (run_all ops) !! uri = Some document ->
  exists doc st_saved,
    documents (run_all ops) !! document = Some doc
    /\ documents st_saved !! document
       = Some (mkDoc (doc_uri doc) (snd (body_save (doc_body doc))))
    /\ trace st_saved
       = trace (run_all ops)
         ++ [EvLog "onDidSaveTextDocument" (Some (uriToPath uri));
             EvDocSave document]
    /\ didSaveTextDocument uri (run_all ops)
       = (Ok tt, match fst (body_save (doc_body doc)) with
                 | Ok _ => add_event (EvBuild false) st_saved
                 | Throw e => add_event (EvShowMessage (mkShow e MTError)) st_saved
                 end)
    /\ build_calls (trace (snd (didSaveTextDocument uri (run_all ops))))
       = build_calls (trace (run_all ops))
         + (if is_ok (fst (body_save (doc_body doc))) then 1 else 0).
Proof.
  intros Hreg. destruct (inv_run_all ops) as [wf _].
  pose proof (wf_registry _ wf _ _ Hreg) as Hvis.
  destruct (wf_visible _ wf _ Hvis) as [ed Hed].
  destruct (wf_editors _ wf _ _ Hed) as ([= <-] & _ & [doc Hdoc]).
  exists doc.
  destruct (didSave_registered _ uri _ doc Hreg Hdoc) as (st_saved & H).
  exists st_saved. split; [exact Hdoc | exact H].
Qed.

(** ** Closing, in a reachable session *)

(** No reachable session has an editor that [didCloseTextDocument] would
    take for the closed one: the visible list and the active editor are the
    same before and after. *)
Lemma close_keeps_every_editor (ops : list Op) uri :
  window (step (run_all ops) (OpDidClose uri)) = window (run_all ops).
Proof.
  destruct (inv_run_all ops) as [wf _]. unfold step, run, fmap, bind.
  now rewrite didClose_state by exact wf.
Qed.

End Properties.

(** * The server at work on the demonstration host *)

Import Demo.

(** C1. Opening two documents in a row triggers two builds: the second
    [didOpen] calls the build trigger again although the first one has
    already set [hasStartedInitialBuild]. *)
Theorem second_open_builds_again :
  hasStartedInitialBuild (run_all (host := host) [OpDidOpen a_go]) = true
  /\ trace (run_all (host := host) [OpDidOpen a_go; OpDidOpen b_go])
     = [EvLog "onDidOpenTextDocument" (Some "file:///a.go"); EvBuild false;
        EvLog "onDidOpenTextDocument" (Some "file:///b.go"); EvBuild false]
  /\ build_calls (trace (run_all (host := host) [OpDidOpen a_go; OpDidOpen b_go]))
     = 2.
Proof. vm_compute. repeat split. Qed.

(** C2. Closing the only open document removes it from the registry and
    leaves its editor in the visible list: the [Uri] parsed by the handler is
    identical to no editor's [Uri], although the editor's document has the
    very URI that is closed. *)
Theorem closed_editor_stays_visible :
  let st := run_all (host := host) [OpDidOpen a_go; OpDidClose "file:///a.go"] in
  openedDocumentUris st !! "file:///a.go" = None
  /\ visibleTextEditors (window st) = [2]
  /\ uri_text <$> editor_document_uri st 2 = Some "file:///a.go".
Proof. vm_compute. repeat split. Qed.

(** Had the comparison succeeded at index [i], [splice(i)] would have
    dropped every editor from [i] on, not only the one at [i]. *)
Example splice_from_drops_the_rest :
  splice_from 1 [10; 20; 30; 40] = [10].
Proof. reflexivity. Qed.

(** After opening [a.go] then [b.go] the active editor is the one of
    [b.go]; a request on [a.go] makes the editor of [a.go] active again. *)
Example most_recent_dispatch_wins :
  let st := run_all (host := host) [OpDidOpen a_go; OpDidOpen b_go] in
  (activeTextEditor (window st) ≫= editor_document st) = Some 4
  /\ openedDocumentUris st !! "file:///b.go" = Some 4
  /\ (activeTextEditor (window (step st hover_a))
       ≫= editor_document (step st hover_a)) = Some 1
  /\ openedDocumentUris st !! "file:///a.go" = Some 1.
Proof. vm_compute. repeat split. Qed.

(** A save that fails is reported to the client and triggers no build. *)
Example failed_save_does_not_build :
  let st := run_all (host := host) [OpDidOpen bad_go] in
  drop (length (trace st)) (trace (step st (OpDidSave "file:///bad.go")))
  = [EvLog "onDidSaveTextDocument" (Some "file:///bad.go"); EvDocSave 1;
     EvShowMessage (mkShow failure MTError)].
Proof. vm_compute. reflexivity. Qed.

(** A code lens is resolved against the active document even when that
    document has been closed in the meantime. *)
Example codeLensResolve_after_close :
  let st := run_all (host := host) [OpDidOpen a_go; OpDidClose "file:///a.go"] in
  openedDocumentUris st !! "file:///a.go" = None
  /\ fst (codeLensResolve (host := host) (mkCodeLens first_line None None) st)
     = Ok (mkCodeLens first_line None (Some 1)).
Proof. vm_compute. repeat split. Qed.



Lemma lookup_follows_registry_witness :
  fst (run (host := host) hover_a (initial_state (DocBody := string * Z)))
  = Throw (DocumentNotOpen (JStr "file:///a.go"))
  /\ getOpenDocument (JStr "file:///a.go") (run_all (host := host) [OpDidOpen a_go])
     = (Ok 1, run_all (host := host) [OpDidOpen a_go]).
Proof.
  split.
  - apply (lookup_follows_registry (host := host) initial_state "file:///a.go");
      reflexivity.
  - apply (lookup_follows_registry (host := host)
             (run_all (host := host) [OpDidOpen a_go]) "file:///a.go").
    vm_compute. reflexivity.
Defined.

Lemma executeCommand_reactivates_witness :
  let st := run_all (host := host) [OpDidOpen a_go; OpDidOpen b_go] in
  exists editor st_active,
    activeTextEditor (window st_active) = Some editor
    /\ editor ∈ visibleTextEditors (window st_active)
    /\ editors st_active !! editor
       = Some (mkEditor 1 (Some (mkSelection (Some origin)
                                             (Some (mkPosition 1 0)))))
    /\ trace st_active = trace st ++ [EvLog "executeCommand" None]
    /\ executeCommand (host := host) "workspace-edit"
         (Some [JNum 7; JBool true; JStr "file:///a.go"; JRange first_line]) st
       = (commands_executeCommand st_active "workspace-edit" [JNum 7; JBool true],
          add_event (EvCommand "workspace-edit" [JNum 7; JBool true]) st_active).
Proof.
  apply (executeCommand_reactivates (host := host)
           [OpDidOpen a_go; OpDidOpen b_go] "workspace-edit"
           (JNum 7) (JBool true) "file:///a.go" first_line 1).
  vm_compute. reflexivity.
Defined.

Lemma build_after_save_witness :
  let st := run_all (host := host) [OpDidOpen a_go] in
  exists doc st_saved,
    documents st !! 1 = Some doc
    /\ documents st_saved !! 1
       = Some (mkDoc (doc_uri doc) (snd (body_save (doc_body doc))))
    /\ trace st_saved
       = trace st ++ [EvLog "onDidSaveTextDocument" (Some "file:///a.go");
                      EvDocSave 1]
    /\ didSaveTextDocument (host := host) "file:///a.go" st
       = (Ok tt, match fst (body_save (doc_body doc)) with
                 | Ok _ => add_event (EvBuild false) st_saved
                 | Throw e => add_event (EvShowMessage (mkShow e MTError)) st_saved
                 end)
    /\ build_calls (trace (snd (didSaveTextDocument (host := host)
                                  "file:///a.go" st)))
       = build_calls (trace st)
         + (if is_ok (fst (body_save (doc_body doc))) then 1 else 0).
Proof.
  apply (build_after_save (host := host) [OpDidOpen a_go] "file:///a.go" 1).
  vm_compute. reflexivity.
Defined.

Lemma completion_appends_proposals_witness :
  fst (completion (host := host) "file:///a.go" origin
         (run_all (host := host) [OpDidOpen a_go]))
  = Ok {| isIncomplete := false; items := ["Println"; "Printf"; "snippet"] |}.
Proof.
  apply (completion_appends_proposals (host := host)
           (run_all (host := host) [OpDidOpen a_go]) "file:///a.go" origin 1
           ["Println"; "Printf"]);
    vm_compute; reflexivity.
Defined.

(** * Further properties of the handlers *)

Section Handlers.

Context {Json DocBody : Type} {host : @Collaborators Json DocBody}.

Implicit Types (st : @ServerState DocBody) (uri : string) (document : nat).

(** Count the builds of a trace built from known events and traces whose
    count is a hypothesis. *)
Ltac count_builds :=
  unfold build_calls in *;
  repeat (rewrite ?List.filter_app, ?length_app; cbn [List.filter is_build length app]);
  lia.

(** ** What the updates leave alone *)

Lemma updates_trans st1 st2 st3 :
  updates st1 st2 -> updates st2 st3 -> updates st1 st3.
Proof.
  intros H12 H23. induction H23.
  - exact H12.
  - now apply updates_trace.
  - now apply updates_body.
  - now apply updates_selection.
Qed.

Lemma updates_event e st st' :
  is_build e = false -> updates st st' -> updates st (add_event e st').
Proof.
  intros He H. rewrite add_event_append. apply updates_trace; [|exact H].
  unfold build_calls. cbn. now rewrite He.
Qed.

Lemma on_body_frame d f st :
  openedDocumentUris (snd (on_body d f st)) = openedDocumentUris st
  /\ hasStartedInitialBuild (snd (on_body d f st)) = hasStartedInitialBuild st
  /\ window (snd (on_body d f st)) = window st
  /\ editors (snd (on_body d f st)) = editors st
  /\ next_oid (snd (on_body d f st)) = next_oid st
  /\ trace (snd (on_body d f st)) = trace st
  /\ forall d', document_uri (snd (on_body d f st)) d' = document_uri st d'.
Proof.
  unfold on_body. destruct (documents st !! d) as [doc|] eqn:Hdoc;
    [|repeat split; reflexivity].
  destruct (f (doc_body doc)) as [r body]. cbn.
  repeat split. intros d'. unfold document_uri. cbn.
  destruct (decide (d = d')) as [<-|Hne].
  - now rewrite lookup_insert_eq, Hdoc.
  - now rewrite lookup_insert_ne.
Qed.

Lemma updates_frame st st' :
  updates st st' ->
  openedDocumentUris st' = openedDocumentUris st
  /\ hasStartedInitialBuild st' = hasStartedInitialBuild st
  /\ window st' = window st
  /\ next_oid st' = next_oid st
  /\ build_calls (trace st') = build_calls (trace st)
  /\ (forall e, editor_document st' e = editor_document st e)
  /\ (forall d, document_uri st' d = document_uri st d).
Proof.
  induction 1 as [|t st' Ht _ IH|d f st' _ IH|e sel st' _ IH].
  - repeat split.
  - destruct IH as (? & ? & ? & ? & Hb & ? & ?).
    repeat split; try assumption.
    cbn [trace append_trace]. rewrite build_calls_app. lia.
  - destruct IH as (Hr & Hf & Hw & Hn & Hb & He & Hd).
    destruct (on_body_frame d f st') as (Hr' & Hf' & Hw' & He' & Hn' & Ht' & Hd').
    repeat split; try congruence.
    all: intros x; unfold editor_document; rewrite ?He', ?Hd'; (apply He || apply Hd).
  - destruct IH as (? & ? & ? & ? & ? & He & ?).
    repeat split; try assumption.
    intros e'. rewrite <- He. unfold editor_document. cbn.
    destruct (decide (e = e')) as [<-|Hne].
    + rewrite lookup_alter_eq. now destruct (editors st' !! e).
    + now rewrite lookup_alter_ne.
Qed.

(** ** Each operation as an update of the focused session *)

Lemma snd_fmap {A B} (f : A -> B) (m : M A) st :
  snd (fmap f m st) = snd (m st).
Proof. unfold fmap, bind, ret. now destruct (m st) as [[a|e] st']. Qed.

Lemma fst_fmap {A B} (f : A -> B) (m : M A) st :
  fst (fmap f m st)
  = match fst (m st) with Ok a => Ok (f a) | Throw e => Throw e end.
Proof. unfold fmap, bind, ret. now destruct (m st) as [[a|e] st']. Qed.

Lemma activated_append_trace document t st :
  activated document (append_trace t st) = append_trace t (activated document st).
Proof. reflexivity. Qed.

Lemma entered_updates service uri document st :
  updates (activated document st) (entered service uri document st).
Proof.
  unfold entered. rewrite add_event_append, activated_append_trace.
  apply updates_trace; [reflexivity | constructor].
Qed.

Lemma executeOnDocument_updates {T} service uri (lambda : nat -> M T) st :
  (forall d s, updates s (snd (lambda d s))) ->
  updates (match openedDocumentUris st !! uri with
           | Some document => activated document st
           | None => st
           end)
          (snd (executeOnDocument service uri lambda st)).
Proof.
  intros Hlambda. destruct (openedDocumentUris st !! uri) as [d|] eqn:Hreg.
  - rewrite (executeOnDocument_present _ _ _ _ d) by exact Hreg.
    pose proof (Hlambda d (entered service uri d st)) as Hrun.
    pose proof (entered_updates service uri d st) as Hentered.
    destruct (lambda d _) as [[a|e] st']; cbn in *.
    + now apply (updates_trans _ _ _ Hentered).
    + apply updates_event; [reflexivity|].
      now apply (updates_trans _ _ _ Hentered).
  - rewrite executeOnDocument_absent by exact Hreg. cbn.
    apply updates_event; [reflexivity | constructor].
Qed.

Lemma delegate_updates (r : DocRequest) document st :
  updates st (snd (delegate r document st)).
Proof.
  destruct (delegate_effects r document st) as (t & -> & _ & Hbuild).
  apply updates_trace; [exact Hbuild | constructor].
Qed.

Lemma method_updates document f e st :
  is_build e = false ->
  updates st (snd (bind (emit e) (fun _ => on_body document f) st)).
Proof.
  intros He. unfold bind, emit, modify. cbn [fst snd].
  apply updates_body. apply updates_event; [exact He | constructor].
Qed.

Lemma handle_state (r : DocRequest) st :
  exists t,
    snd (handle r st)
    = append_trace t (match openedDocumentUris st !! request_uri r with
                      | Some document => activated document st
                      | None => st
                      end)
    /\ build_calls t = 0.
Proof.
  rewrite handle_pipeline. unfold await.
  destruct (openedDocumentUris st !! request_uri r) as [d|] eqn:Hreg.
  - rewrite (executeOnDocument_present _ _ _ _ d) by exact Hreg.
    destruct (delegate_effects r d
                (entered (service_name r) (request_uri r) d st))
      as (t & Hst & _ & Hbuild).
    unfold entered in *. rewrite add_event_append, activated_append_trace in *.
    rewrite append_trace_append in Hst.
    destruct (delegate r d _) as [[a|e] st']; cbn in Hst |- *; subst st'.
    + eexists. split; [reflexivity|]. count_builds.
    + rewrite add_event_append, append_trace_append.
      eexists. split; [reflexivity|]. count_builds.
  - rewrite executeOnDocument_absent by exact Hreg. cbn.
    eexists. split; [apply add_event_append | reflexivity].
Qed.

Lemma activateEditor_updates document (selection : JsValue) st :
  updates (activated document st) (snd (activateEditor document selection st)).
Proof.
  unfold activateEditor, bind, get, modify, ret, throw. cbn.
  fold (activated document st).
  destruct (truthy selection); cbn; [|constructor].
  destruct (js_find _ _) as [editor|]; cbn; [|constructor].
  apply updates_selection. constructor.
Qed.

#[local] Arguments activateEditor : simpl never.

Lemma executeCommand_updates command arguments st :
  updates (focused st (@OpExecuteCommand Json command arguments))
          (snd (executeCommand command arguments st)).
Proof.
  unfold focused, resolved, executeCommand, bind, log, emit, modify. cbn.
  destruct arguments as [args|];
    [|apply updates_event; [reflexivity | constructor]].
  unfold getOpenDocument, bind, get. cbn.
  destruct (js_index args (Z.of_nat (length args) - 2)) as [| | | |uri|]; cbn;
    try (apply updates_event; [reflexivity | constructor]).
  destruct (openedDocumentUris st !! uri) as [d|] eqn:Hreg; cbn;
    [|apply updates_event; [reflexivity | constructor]].
  pose proof (activateEditor_updates d
                (js_index args (Z.of_nat (length args) - 1))
                (add_event (EvLog "executeCommand" None) st)) as Hact.
  rewrite add_event_append, activated_append_trace in Hact.
  assert (updates (activated d st)
            (append_trace [EvLog "executeCommand" None] (activated d st))) as Hlog
    by (apply updates_trace; [reflexivity | constructor]).
  pose proof (updates_trans _ _ _ Hlog Hact) as Hall.
  rewrite add_event_append.
  destruct (activateEditor d _ _) as [[]]; cbn in *; [|exact Hall].
  apply updates_event; [reflexivity | exact Hall].
Qed.

Lemma codeLensResolve_updates (codeLens : CodeLens) st :
  updates st (snd (codeLensResolve codeLens st)).
Proof.
  unfold codeLensResolve, bind, get, call, throw. cbn.
  destruct (activeTextEditor (window st) ≫= editor_document st) as [d|]; cbn.
  - apply updates_event; [reflexivity | constructor].
  - constructor.
Qed.

Lemma didSave_updates uri st :
  exists st',
    updates (focused st (@OpDidSave Json uri)) st'
    /\ (step st (OpDidSave uri) = st'
        \/ step st (OpDidSave uri) = add_event (EvBuild false) st').
Proof.
  unfold step, run. rewrite snd_fmap. unfold didSaveTextDocument, bind.
  pose proof (executeOnDocument_updates "onDidSaveTextDocument" uri
                (fun document => document_save document) st) as Hpipe.
  exists (snd (executeOnDocument "onDidSaveTextDocument" uri
                 (fun document => document_save document) st)).
  split.
  - apply Hpipe. intros d s. now apply method_updates.
  - destruct (executeOnDocument _ _ _ st) as [[[]|] st']; cbn; auto.
Qed.

Lemma step_updates (op : Op) st :
  is_didOpen op = false -> is_didClose op = false -> is_didSave op = false ->
  updates (focused st op) (step st op).
Proof.
  destruct op as [textDocument | uri | uri version contentChanges | uri | r
                 | lens | command arguments | uri position | query];
    cbn [is_didOpen is_didClose is_didSave]; try discriminate; intros _ _ _;
    unfold step, run; rewrite snd_fmap || idtac.
  - unfold didChangeTextDocument.
    change (snd (bind ?m (fun _ => ret tt) st)) with (snd (fmap (fun _ => tt) m st)).
    rewrite snd_fmap.
    apply (executeOnDocument_updates "onDidCloseTextDocument" uri).
    intros d s. now apply method_updates.
  - destruct (handle_state r st) as (t & -> & Hbuild).
    apply updates_trace; [exact Hbuild | constructor].
  - apply codeLensResolve_updates.
  - apply executeCommand_updates.
  - cbn. apply updates_event; [reflexivity | constructor].
  - unfold workspaceSymbol, bind, log, emit, modify, call. cbn.
    do 2 (apply updates_event; [reflexivity|]). constructor.
Qed.

Lemma focused_frame (op : @Op Json) st :
  openedDocumentUris (focused st op) = openedDocumentUris st
  /\ hasStartedInitialBuild (focused st op) = hasStartedInitialBuild st
  /\ visibleTextEditors (window (focused st op)) = visibleTextEditors (window st)
  /\ documents (focused st op) = documents st
  /\ editors (focused st op) = editors st
  /\ next_oid (focused st op) = next_oid st
  /\ trace (focused st op) = trace st.
Proof. unfold focused. destruct (resolved st op); repeat split. Qed.

(** ** Opening and closing *)

Lemma step_open (textDocument : TextDocumentItem) st :
  step st (OpDidOpen textDocument) = snd (didOpenTextDocument textDocument st).
Proof. unfold step, run. apply snd_fmap. Qed.

Lemma step_close uri st :
  step st (@OpDidClose Json uri) = snd (didCloseTextDocument uri st).
Proof. unfold step, run. apply snd_fmap. Qed.

(** X1. Opening a document registers it under its URI, whether or not the
    URI was registered before: the lookup of that URI then returns a newly
    stored document with the item's content whose [Uri] has the item's URI
    as text; a new editor on that document is appended to the visible
    editors and becomes the active one; other URIs keep their entries. *)
Theorem open_registers_document (textDocument : TextDocumentItem) st :
  exists document editor u,
    getOpenDocument (JStr (item_uri textDocument)) (step st (OpDidOpen textDocument))
      = (Ok document, step st (OpDidOpen textDocument))
    /\ documents (step st (OpDidOpen textDocument)) !! document
       = Some (mkDoc u (initial_body textDocument))
    /\ uri_text u = item_uri textDocument
    /\ visibleTextEditors (window (step st (OpDidOpen textDocument)))
       = visibleTextEditors (window st) ++ [editor]
    /\ activeTextEditor (window (step st (OpDidOpen textDocument))) = Some editor
    /\ editors (step st (OpDidOpen textDocument)) !! editor
       = Some (mkEditor document None)
    /\ forall uri, uri <> item_uri textDocument ->
         openedDocumentUris (step st (OpDidOpen textDocument)) !! uri
         = openedDocumentUris st !! uri.
Proof.
  rewrite step_open, didOpen_state. cbn [snd].
  exists (S (next_oid st)), (S (S (next_oid st))),
         (mkUri (next_oid st) (item_uri textDocument)).
  split; [apply getOpenDocument_present; cbn; apply lookup_insert_eq|].
  split; [cbn; apply lookup_insert_eq|].
  split; [reflexivity|]. split; [reflexivity|]. split; [reflexivity|].
  split; [cbn; apply lookup_insert_eq|].
  intros uri Hne. cbn. now apply lookup_insert_ne.
Qed.

(** X2. Opening a document and closing it again leaves the registry as it
    was without the entry of that URI; if the URI had no entry, the registry
    is back to what it was. *)
Theorem open_then_close_registry (textDocument : TextDocumentItem) st :
  openedDocumentUris
    (step (step st (OpDidOpen textDocument)) (OpDidClose (item_uri textDocument)))
  = delete (item_uri textDocument) (openedDocumentUris st)
  /\ (openedDocumentUris st !! item_uri textDocument = None ->
      openedDocumentUris
        (step (step st (OpDidOpen textDocument))
              (OpDidClose (item_uri textDocument)))
      = openedDocumentUris st).
Proof.
  assert (openedDocumentUris
            (step (step st (OpDidOpen textDocument))
                  (OpDidClose (item_uri textDocument)))
          = delete (item_uri textDocument) (openedDocumentUris st)) as Heq.
  { rewrite step_close, didClose_registry, step_open, didOpen_state. cbn.
    apply delete_insert_eq. }
  split; [exact Heq|]. intros Hnone. rewrite Heq. now apply delete_id.
Qed.

(** ** What the handlers never do *)

(** X5. Only [didOpen] and [didSave] call the build trigger: every other
    operation leaves the number of build calls as it is, in every session. *)
Theorem builds_only_on_open_and_save (op : Op) st :
  is_didOpen op = false -> is_didSave op = false ->
  build_calls (trace (step st op)) = build_calls (trace st).
Proof.
  intros Hopen Hsave. destruct (is_didClose op) eqn:Hclose.
  - destruct op; try discriminate. rewrite step_close.
    unfold didCloseTextDocument, bind, log, emit, modify, Uri_parse, fresh, get, ret.
    cbn -[Nat.ltb first_index_from build_calls].
    case_innermost; cbn [snd trace]; state_fields; count_builds.
  - destruct (updates_frame _ _ (step_updates op st Hopen Hclose Hsave))
      as (_ & _ & _ & _ & Hbuild & _).
    rewrite Hbuild. now destruct (focused_frame op st) as (_ & _ & _ & _ & _ & _ & ->).
Qed.

(** X6. A request on a URI that is not registered is not reported to the
    client and is not wrapped: the raw error of the lookup reaches the
    caller, and the session gains one log entry and nothing else, so the
    active editor stays what it was. *)
Theorem unopened_request_untouched (r : DocRequest) st :
  openedDocumentUris st !! request_uri r = None ->
  handle r st
  = (Throw (DocumentNotOpen (JStr (request_uri r))),
     add_event (EvLog (service_name r) (Some (uriToPath (request_uri r)))) st).
Proof.
  intros Hreg. rewrite handle_pipeline. unfold await.
  now rewrite executeOnDocument_absent.
Qed.

(** X8. A document-based request is read-only on the session data: it
    changes neither the registry, nor the stored documents and editors
    (contents and selections included), nor the visible list, nor the build
    flag; it calls no build. *)
Theorem request_is_read_only (r : DocRequest) st :
  openedDocumentUris (snd (handle r st)) = openedDocumentUris st
  /\ documents (snd (handle r st)) = documents st
  /\ editors (snd (handle r st)) = editors st
  /\ visibleTextEditors (window (snd (handle r st)))
     = visibleTextEditors (window st)
  /\ hasStartedInitialBuild (snd (handle r st)) = hasStartedInitialBuild st
  /\ build_calls (trace (snd (handle r st))) = build_calls (trace st).
Proof.
  destruct (handle_state r st) as (t & -> & Hbuild).
  repeat split; try (now destruct (openedDocumentUris st !! request_uri r)).
  assert (trace (match openedDocumentUris st !! request_uri r with
                 | Some document => activated document st
                 | None => st
                 end) = trace st) as Htrace
    by now destruct (openedDocumentUris st !! request_uri r).
  cbn [trace append_trace]. rewrite build_calls_app, Hbuild, Htrace. lia.
Qed.

(** X15. The build flag tells whether a document has been opened: in the
    session reached by any sequence of operations, [hasStartedInitialBuild]
    is true exactly when the sequence contains a [didOpen]. *)
Theorem flag_tracks_open (ops : list Op) :
  hasStartedInitialBuild (run_all ops) = existsb is_didOpen ops.
Proof.
  unfold run_all.
  change (existsb is_didOpen ops)
    with (hasStartedInitialBuild (@initial_state DocBody) || existsb is_didOpen ops).
  generalize (@initial_state DocBody). induction ops as [|op ops IH]; intros st.
  - cbn. now rewrite orb_false_r.
  - cbn [fold_left existsb]. rewrite IH, orb_assoc. f_equal.
    destruct (is_didOpen op) eqn:Hopen.
    + destruct op; try discriminate. rewrite step_open, didOpen_state. cbn.
      now rewrite orb_true_r.
    + rewrite orb_false_r. destruct (is_didClose op) eqn:Hclose.
      * destruct op; try discriminate. rewrite step_close.
        unfold didCloseTextDocument, bind, log, emit, modify, Uri_parse, fresh,
          get, ret.
        cbn -[Nat.ltb first_index_from]. now case_innermost.
      * destruct (is_didSave op) eqn:Hsave.
        -- destruct op; try discriminate.
           destruct (didSave_updates uri st) as (st' & Hup & [-> | ->]);
             destruct (updates_frame _ _ Hup) as (_ & Hflag & _);
             cbn [hasStartedInitialBuild add_event]; rewrite Hflag;
             now destruct (focused_frame (@OpDidSave Json uri) st) as (_ & -> & _).
        -- destruct (updates_frame _ _ (step_updates op st Hopen Hclose Hsave))
             as (_ & -> & _).
           now destruct (focused_frame op st) as (_ & -> & _).
Qed.

(** ** Invariants of reachable sessions *)

(** What a step does to the session data that the updates leave alone. *)
Lemma step_frame (op : Op) st :
  well_formed st -> is_didOpen op = false ->
  visibleTextEditors (window (step st op)) = visibleTextEditors (window st)
  /\ (forall uri d, openedDocumentUris (step st op) !! uri = Some d ->
        openedDocumentUris st !! uri = Some d)
  /\ (forall d, document_uri (step st op) d = document_uri st d).
Proof.
  intros wf Hopen. destruct (is_didClose op) eqn:Hclose.
  - destruct op; try discriminate. rewrite step_close, didClose_state by exact wf.
    cbn. repeat split. now intros u d [_ Hd]%lookup_delete_Some.
  - assert (exists st', updates (focused st op) st'
              /\ (step st op = st' \/ step st op = add_event (EvBuild false) st'))
      as (st' & Hup & Hstep).
    { destruct (is_didSave op) eqn:Hsave.
      - destruct op; try discriminate. apply didSave_updates.
      - exists (step st op). split; [now apply step_updates | now left]. }
    destruct (updates_frame _ _ Hup) as (Hreg & _ & Hwin & _ & _ & _ & Huri).
    destruct (focused_frame op st) as (Hreg' & _ & Hvis' & Hdocs' & _).
    assert (forall d, document_uri (focused st op) d = document_uri st d) as Huri'
      by (intros d; unfold document_uri; now rewrite Hdocs').
    destruct Hstep as [-> | ->]; cbn [window openedDocumentUris add_event];
      (split; [now rewrite Hwin|]); (split; [now rewrite Hreg, Hreg'|]);
      intros d; rewrite <- Huri', <- Huri; reflexivity.
Qed.

Lemma visible_count_fold (ops : list Op) b st :
  session_invariant b st ->
  length (visibleTextEditors (window (fold_left step ops st)))
  = length (visibleTextEditors (window st)) + length (List.filter is_didOpen ops).
Proof.
  revert b st. induction ops as [|op ops IH]; intros b st Hinv; cbn [fold_left].
  - cbn. lia.
  - rewrite (IH _ _ (inv_step b op st Hinv)). cbn [List.filter].
    destruct (is_didOpen op) eqn:Hopen.
    + destruct op; try discriminate. rewrite step_open, didOpen_state. cbn.
      rewrite length_app. cbn. lia.
    + destruct Hinv as [wf _].
      now destruct (step_frame op st wf Hopen) as (-> & _).
Qed.

(** X4. Visible editors are never removed: in the session reached by any
    sequence of operations the visible list holds exactly one editor for
    each [didOpen] of the sequence, however many documents were closed. *)
Theorem visible_editors_count (ops : list Op) :
  length (visibleTextEditors (window (run_all ops)))
  = length (List.filter is_didOpen ops).
Proof. apply (visible_count_fold ops false), inv_initial. Qed.

(** X7. The most recent dispatch wins: in a reachable session, every
    operation that resolves a registered URI (a request, a change, a save, a
    command, whether it succeeds or fails afterwards) leaves the editor of
    the resolved document as the active editor. *)
Theorem dispatch_activates_document (ops : list Op) (op : Op) uri document :
  op_target op = Some (JStr uri) ->
  openedDocumentUris (run_all ops) !! uri = Some document ->
  activeTextEditor (window (step (run_all ops) op))
    ≫= editor_document (step (run_all ops) op)
  = Some document.
Proof.
  intros Htarget Hreg. destruct (inv_run_all ops) as [wf _].
  set (st := run_all ops) in *. clearbody st.
  assert (is_didOpen op = false) as Hopen by (destruct op; cbn in *; congruence).
  assert (is_didClose op = false) as Hclose by (destruct op; cbn in *; congruence).
  assert (focused st op = activated document st) as Hfocus
    by (unfold focused, resolved; now rewrite Htarget, Hreg).
  assert (exists st', updates (activated document st) st'
            /\ (step st op = st' \/ step st op = add_event (EvBuild false) st'))
    as (st' & Hup & Hstep).
  { rewrite <- Hfocus. destruct (is_didSave op) eqn:Hsave.
    - destruct op; try discriminate. apply didSave_updates.
    - exists (step st op). split; [now apply step_updates | now left]. }
  destruct (updates_frame _ _ Hup) as (_ & _ & Hwin & _ & _ & Hed & _).
  rewrite (activated_registered st uri) in Hwin, Hed by assumption.
  pose proof (wf_registry _ wf _ _ Hreg) as Hvis.
  destruct (wf_visible _ wf _ Hvis) as [ed Hedit].
  destruct (wf_editors _ wf _ _ Hedit) as ([= Hdoc] & _).
  assert (editor_document st' (S document) = Some document) as Hactive.
  { rewrite Hed. unfold editor_document. cbn. rewrite Hedit. cbn. now rewrite Hdoc. }
  destruct Hstep as [-> | ->].
  - rewrite Hwin. cbn. exact Hactive.
  - cbn [window add_event]. rewrite Hwin. cbn. exact Hactive.
Qed.

Lemma uris_fold (ops : list Op) b st :
  session_invariant b st ->
  (forall uri d, openedDocumentUris st !! uri = Some d ->
     exists u, document_uri st d = Some u /\ uri_text u = uri) ->
  forall uri d, openedDocumentUris (fold_left step ops st) !! uri = Some d ->
    exists u, document_uri (fold_left step ops st) d = Some u /\ uri_text u = uri.
Proof.
  revert b st. induction ops as [|op ops IH]; intros b st Hinv Huris;
    cbn [fold_left]; [exact Huris|].
  apply (IH _ _ (inv_step b op st Hinv)). destruct Hinv as [wf _].
  destruct (is_didOpen op) eqn:Hopen.
  - destruct op; try discriminate. rewrite step_open, didOpen_state. cbn [snd].
    intros uri d. unfold document_uri. cbn.
    destruct (decide (item_uri textDocument = uri)) as [<-|Hne].
    + rewrite lookup_insert_eq. intros [= <-]. rewrite lookup_insert_eq. cbn. eauto.
    + rewrite lookup_insert_ne by exact Hne. intros Hreg.
      destruct (Huris uri d Hreg) as (u & Hu & Htext). exists u. split; [|exact Htext].
      unfold document_uri in Hu.
      destruct (documents st !! d) as [doc|] eqn:Hdoc; [|discriminate].
      destruct (wf_documents _ wf _ _ Hdoc) as [_ Hlt].
      rewrite lookup_insert_ne by lia. now rewrite Hdoc.
  - destruct (step_frame op st wf Hopen) as (_ & Hreg & Huri).
    intros uri d Hd. rewrite Huri. apply Huris. now apply Hreg.
Qed.

Lemma registered_uri (ops : list Op) uri document :
  openedDocumentUris (run_all ops) !! uri = Some document ->
  exists u, document_uri (run_all ops) document = Some u /\ uri_text u = uri.
Proof.
  intros Hreg.
  apply (uris_fold ops false initial_state inv_initial); [|exact Hreg].
  intros u d. cbn. now rewrite lookup_empty.
Qed.

(** X17. In a reachable session the registry is consistent with the
    documents: the document registered under a URI is stored, and the [Uri]
    it holds has that very URI as its text. *)
Theorem registered_document_has_its_uri (ops : list Op) uri document :
  openedDocumentUris (run_all ops) !! uri = Some document ->
  exists doc, documents (run_all ops) !! document = Some doc
              /\ uri_text (doc_uri doc) = uri.
Proof.
  intros Hreg. destruct (registered_uri ops uri document Hreg) as (u & Hu & Htext).
  unfold document_uri in Hu.
  destruct (documents _ !! document) as [doc|]; cbn in Hu; [|discriminate].
  injection Hu as <-. eauto.
Qed.

(** ** Outcomes of requests *)

Lemma request_outcome (r : DocRequest) st document :
  openedDocumentUris st !! request_uri r = Some document ->
  fst (handle r st)
  = match fst (delegate r document
                 (entered (service_name r) (request_uri r) document st)) with
    | Ok a => Ok a
    | Throw e => Throw (ThrownResponseError InvalidRequest (thrown_to_string e) e)
    end.
Proof.
  intros Hreg. rewrite handle_pipeline. unfold await.
  rewrite (executeOnDocument_present _ _ _ _ document) by exact Hreg.
  now destruct (delegate r document _) as [[a|e] st'].
Qed.

(** X16. A request on a document that has just been opened always gets past
    the lookup: its outcome is the outcome of its lambda on the new document,
    a failure being wrapped as an invalid-request error; it is never the
    document-not-open error. *)
Theorem open_then_request_resolves (textDocument : TextDocumentItem)
    (r : DocRequest) st :
  request_uri r = item_uri textDocument ->
  exists document,
    openedDocumentUris (step st (OpDidOpen textDocument)) !! request_uri r
      = Some document
    /\ fst (handle r (step st (OpDidOpen textDocument)))
       = match fst (delegate r document
                      (entered (service_name r) (request_uri r) document
                         (step st (OpDidOpen textDocument)))) with
         | Ok a => Ok a
         | Throw e => Throw (ThrownResponseError InvalidRequest (thrown_to_string e) e)
         end
    /\ fst (handle r (step st (OpDidOpen textDocument)))
       <> Throw (DocumentNotOpen (JStr (request_uri r))).
Proof.
  intros Huri. exists (S (next_oid st)).
  assert (openedDocumentUris (step st (OpDidOpen textDocument)) !! request_uri r
          = Some (S (next_oid st))) as Hreg.
  { rewrite step_open, didOpen_state, Huri. cbn. apply lookup_insert_eq. }
  split; [exact Hreg|].
  rewrite (request_outcome r _ _ Hreg).
  split; [reflexivity|]. now destruct (fst (delegate r _ _)).
Qed.

(** X10. In a reachable session, the symbols answered for an open document
    are the provider's symbols, in the same order, each relocated to its own
    range in the requested document: the location the provider supplied is
    replaced, and the location's URI is the one of the [Uri] held by the
    document registered under the request's URI. *)
Theorem documentSymbol_locations (ops : list Op) uri document
    (symbols : list SymbolInformation) :
  openedDocumentUris (run_all ops) !! uri = Some document ->
  provideDocumentSymbols (entered "symbol" uri document (run_all ops)) document
    = Ok symbols ->
  exists u,
    uri_text u = uri
    /\ fst (documentSymbol uri (run_all ops))
       = Ok (map (fun symbol =>
                    mkSymbol (sym_info symbol) (sym_range symbol)
                      (Some (mkLocation (sym_range symbol) (uriToStringUri u))))
                 symbols).
Proof.
  intros Hreg Hsymbols.
  destruct (registered_uri ops uri document Hreg) as (u & Hu & Htext).
  exists u. split; [exact Htext|].
  unfold documentSymbol, await.
  rewrite (executeOnDocument_present _ _ _ _ document) by exact Hreg.
  unfold bind, call, get. rewrite Hsymbols. cbn [fst snd].
  assert (document_uri
            (add_event (EvProvider "provideDocumentSymbols" (Some document))
               (entered "symbol" uri document (run_all ops))) document = Some u)
    as -> by exact Hu.
  reflexivity.
Qed.

(** X11. The code-lens request asks the reference provider first and the
    test provider second: when the first fails the second is not called and
    the first error is the one reported; when both answer, the answer is the
    reference lenses followed by the test lenses. *)
Theorem codeLens_order st uri document :
  openedDocumentUris st !! uri = Some document ->
  (forall e,
     reference_provideCodeLenses (entered "codeLens" uri document st) document
       = Throw e ->
     codeLens uri st
     = (Throw (ThrownResponseError InvalidRequest (thrown_to_string e) e),
        add_event (EvShowMessage (mkShow e MTError))
          (add_event (EvProvider "reference.provideCodeLenses" (Some document))
             (entered "codeLens" uri document st))))
  /\ (forall references tests,
       reference_provideCodeLenses (entered "codeLens" uri document st) document
         = Ok references ->
       test_provideCodeLenses
         (add_event (EvProvider "reference.provideCodeLenses" (Some document))
            (entered "codeLens" uri document st)) document
         = Ok tests ->
       fst (codeLens uri st) = Ok (references ++ tests)).
Proof.
  intros Hreg. split.
  - intros e Hfail. unfold codeLens, await.
    rewrite (executeOnDocument_present _ _ _ _ document) by exact Hreg.
    unfold bind, call. now rewrite Hfail.
  - intros references tests Href Htest. unfold codeLens, await.
    rewrite (executeOnDocument_present _ _ _ _ document) by exact Hreg.
    unfold bind, call. rewrite Href. cbn [fst snd]. now rewrite Htest.
Qed.

(** ** Commands *)

Lemma js_index_context (pre : list JsValue) (u v : JsValue) :
  js_index (pre ++ [u; v]) (Z.of_nat (length (pre ++ [u; v])) - 2) = u
  /\ js_index (pre ++ [u; v]) (Z.of_nat (length (pre ++ [u; v])) - 1) = v
  /\ slice_0_minus2 (pre ++ [u; v]) = pre.
Proof.
  rewrite length_app. cbn [length].
  replace (Z.of_nat (length pre + 2) - 2)%Z with (Z.of_nat (length pre)) by lia.
  replace (Z.of_nat (length pre + 2) - 1)%Z with (Z.of_nat (S (length pre))) by lia.
  unfold js_index, slice_0_minus2.
  destruct (Z.ltb_spec (Z.of_nat (length pre)) 0); [lia|].
  destruct (Z.ltb_spec (Z.of_nat (S (length pre))) 0); [lia|].
  rewrite !Nat2Z.id, length_app. cbn [length].
  rewrite !lookup_app_r by lia.
  replace (length pre - length pre) with 0 by lia.
  replace (S (length pre) - length pre) with 1 by lia.
  replace (length pre + 2 - 2) with (length pre) by lia.
  repeat split. now rewrite take_app_length.
Qed.

(** X12. A command with fewer than two arguments cannot name its context:
    the lookup is made on the undefined value, the request fails with the
    document-not-open error for ["undefined"], and neither the active editor
    nor anything but the log is touched; the command itself is not run. *)
Theorem executeCommand_too_few_arguments command (args : list JsValue) st :
  length args < 2 ->
  executeCommand command (Some args) st
  = (Throw (ThrownError "Document undefined has not been opened."),
     add_event (EvLog "executeCommand" None) st).
Proof.
  intros Hlen. destruct args as [|a [|b args]]; [reflexivity | reflexivity |].
  cbn in Hlen. lia.
Qed.

(** X13. The last two arguments are the context, whatever the number of
    arguments: in a reachable session, a command whose second-to-last
    argument names an open document runs with all the arguments before the
    last two, in a session where the editor of that document is active; its
    outcome, a failure included, is returned as it is and no notification is
    sent; a last argument that is truthy becomes the selection of that
    editor, a falsy one leaves every selection as it was. *)
Theorem executeCommand_context_arguments (ops : list Op) command
    (pre : list JsValue) uri (selection : JsValue) document :
  openedDocumentUris (run_all ops) !! uri = Some document ->
  exists editor st_active,
    executeCommand command (Some (pre ++ [JStr uri; selection])) (run_all ops)
    = (commands_executeCommand st_active command pre,
       add_event (EvCommand command pre) st_active)
    /\ activeTextEditor (window st_active) = Some editor
    /\ editor_document st_active editor = Some document
    /\ notifications (trace (add_event (EvCommand command pre) st_active))
       = notifications (trace (run_all ops))
    /\ (truthy selection = true ->
        ed_selection <$> editors st_active !! editor
        = Some (Some (mkSelection (js_start selection) (js_end selection))))
    /\ (truthy selection = false -> editors st_active = editors (run_all ops)).
Proof.
  intros Hreg. destruct (inv_run_all ops) as [wf _].
  set (st := run_all ops) in *. clearbody st.
  destruct (js_index_context pre (JStr uri) selection) as (Huri & Hsel & Hpre).
  assert (well_formed (add_event (EvLog "executeCommand" None) st)) as wf1
    by (destruct wf; constructor; assumption).
  pose proof (activateEditor_state _ uri document selection wf1 Hreg) as Hact.
  rewrite (activated_registered _ uri) in Hact by assumption.
  pose proof (wf_registry _ wf _ _ Hreg) as Hvis.
  destruct (wf_visible _ wf _ Hvis) as [ed Hed].
  destruct (wf_editors _ wf _ _ Hed) as ([= Hdoc] & _).
  exists (S document). eexists. split.
  - unfold executeCommand, bind, log, emit, modify. cbn [fst snd].
    rewrite Huri, Hsel, Hpre.
    unfold getOpenDocument at 1. unfold bind, get. cbn [fst snd].
    cbn [openedDocumentUris add_event]. rewrite Hreg. unfold ret at 1.
    rewrite Hact. reflexivity.
  - destruct (truthy selection) eqn:Htruthy; cbn.
    + split; [reflexivity|]. split.
      { unfold editor_document. cbn. rewrite lookup_alter_eq, Hed. cbn.
        now rewrite Hdoc. }
      split; [rewrite !notifications_app; cbn; now rewrite !app_nil_r|].
      split; [|discriminate]. intros _. now rewrite lookup_alter_eq, Hed.
    + split; [reflexivity|]. split.
      { unfold editor_document. cbn. rewrite Hed. cbn. now rewrite Hdoc. }
      split; [rewrite !notifications_app; cbn; now rewrite !app_nil_r|].
      split; [discriminate | reflexivity].
Qed.

(** ** Changes *)

(** X14. In a reachable session, a [didChange] on an open document applies
    the changes to the stored document in place, keeping its [Uri], and
    returns normally whether [apply] succeeded or not: a failure of [apply]
    is only shown to the client as an error notification.  No build is
    triggered either way. *)
Theorem didChange_applies_in_place (ops : list Op) uri version
    (contentChanges : list Json) document :
  openedDocumentUris (run_all ops) !! uri = Some document ->
  exists doc,
    documents (run_all ops) !! document = Some doc
    /\ fst (didChangeTextDocument uri version contentChanges (run_all ops)) = Ok tt
    /\ documents
         (snd (didChangeTextDocument uri version contentChanges (run_all ops)))
         !! document
       = Some (mkDoc (doc_uri doc)
                 (snd (body_apply contentChanges version (doc_body doc))))
    /\ notifications
         (trace (snd (didChangeTextDocument uri version contentChanges
                        (run_all ops))))
       = notifications (trace (run_all ops))
         ++ match fst (body_apply contentChanges version (doc_body doc)) with
            | Ok _ => []
            | Throw e => [mkShow e MTError]
            end
    /\ build_calls
         (trace (snd (didChangeTextDocument uri version contentChanges
                        (run_all ops))))
       = build_calls (trace (run_all ops)).
Proof.
  intros Hreg. destruct (inv_run_all ops) as [wf _].
  set (st := run_all ops) in *. clearbody st.
  pose proof (wf_registry _ wf _ _ Hreg) as Hvis.
  destruct (wf_visible _ wf _ Hvis) as [ed Hed].
  destruct (wf_editors _ wf _ _ Hed) as ([= <-] & _ & [doc Hdoc]).
  exists doc. split; [exact Hdoc|].
  unfold didChangeTextDocument, bind.
  rewrite (executeOnDocument_present _ _ _ _ document) by exact Hreg.
  unfold document_apply, on_body, bind, emit, modify. cbn.
  rewrite Hdoc.
  destruct (body_apply contentChanges version (doc_body doc)) as [[[]|e] body];
    cbn; (split; [reflexivity|]); (split; [apply lookup_insert_eq|]);
    (split; [rewrite !notifications_app; cbn; now rewrite ?app_nil_r|]);
    count_builds.
Qed.

(** ** Closing, and resolving a code lens *)

(** X3. In a reachable session, closing a URI only unregisters it: the
    visible editors and the active editor stay as they are, also when the
    closed document is the active one, and the stored documents and editors
    are all kept. *)
Theorem close_only_unregisters (ops : list Op) uri :
  openedDocumentUris (step (run_all ops) (OpDidClose uri))
    = delete uri (openedDocumentUris (run_all ops))
  /\ window (step (run_all ops) (OpDidClose uri)) = window (run_all ops)
  /\ documents (step (run_all ops) (OpDidClose uri)) = documents (run_all ops)
  /\ editors (step (run_all ops) (OpDidClose uri)) = editors (run_all ops).
Proof.
  destruct (inv_run_all ops) as [wf _].
  rewrite step_close, didClose_state by exact wf. repeat split.
Qed.

(** X9. Resolving a code lens depends on the history only through the
    first [didOpen]: before it, every resolve fails with a type error and
    the provider is not reached; after it, every resolve reaches the
    provider, with the lens bound to a stored document, even when every
    document has been closed since. *)
Theorem codeLensResolve_needs_an_open (ops : list Op) (codeLens : CodeLens) :
  if existsb is_didOpen ops
  then exists document,
         is_Some (documents (run_all ops) !! document)
         /\ codeLensResolve codeLens (run_all ops)
            = (resolveCodeLens (run_all ops)
                 (mkCodeLens (lens_range codeLens) (lens_command codeLens)
                             (Some document)),
               add_event (EvProvider "resolveCodeLens" (Some document))
                 (run_all ops))
  else codeLensResolve codeLens (run_all ops)
       = (Throw (ThrownTypeError "Cannot read property 'document' of undefined"),
          run_all ops).
Proof.
  destruct (inv_run_all ops) as [wf Hact].
  unfold codeLensResolve, bind, get, call, throw.
  destruct (existsb is_didOpen ops).
  - destruct Hact as [editor Heditor]. rewrite Heditor. cbn.
    pose proof (wf_active _ wf _ Heditor) as Hvis.
    destruct (wf_visible _ wf _ Hvis) as [ed Hed].
    destruct (wf_editors _ wf _ _ Hed) as (_ & _ & Hdoc).
    unfold editor_document. rewrite Hed. cbn. eauto.
  - destruct Hact as [-> _]. reflexivity.
Qed.

End Handlers.

(** * The further properties at work *)

Lemma builds_only_on_open_and_save_witness :
  build_calls (trace (step (host := host)
                        (run_all (host := host) [OpDidOpen a_go]) hover_a))
  = build_calls (trace (run_all (host := host) [OpDidOpen a_go])).
Proof.
  apply (builds_only_on_open_and_save (host := host) hover_a
           (run_all (host := host) [OpDidOpen a_go])); reflexivity.
Defined.

Lemma unopened_request_untouched_witness :
  handle (host := host) (ReqHover "file:///a.go" origin)
         (initial_state (DocBody := string * Z))
  = (Throw (DocumentNotOpen (JStr "file:///a.go")),
     add_event (EvLog "hover" (Some "file:///a.go")) initial_state).
Proof.
  apply (unopened_request_untouched (host := host)
           (ReqHover "file:///a.go" origin) initial_state).
  reflexivity.
Defined.

Lemma dispatch_activates_document_witness :
  let st := run_all (host := host) [OpDidOpen a_go; OpDidOpen b_go] in
  activeTextEditor (window (step (host := host) st hover_a))
    ≫= editor_document (step (host := host) st hover_a)
  = Some 1.
Proof.
  apply (dispatch_activates_document (host := host)
           [OpDidOpen a_go; OpDidOpen b_go] hover_a "file:///a.go" 1);
    vm_compute; reflexivity.
Defined.

Lemma documentSymbol_locations_witness :
  exists u,
    uri_text u = "file:///a.go"
    /\ fst (documentSymbol (host := outline_host) "file:///a.go"
              (run_all (host := outline_host) [OpDidOpen a_go]))
       = Ok (map (fun symbol =>
                    mkSymbol (sym_info symbol) (sym_range symbol)
                      (Some (mkLocation (sym_range symbol) (uri_text u))))
                 [main_symbol]).
Proof.
  apply (documentSymbol_locations (host := outline_host)
           [OpDidOpen a_go] "file:///a.go" 1 [main_symbol]);
    vm_compute; reflexivity.
Defined.

Lemma codeLens_order_witness :
  fst (codeLens (host := outline_host) "file:///a.go"
         (run_all (host := outline_host) [OpDidOpen a_go]))
  = Ok [references_lens; run_test_lens]
  /\ trace (snd (codeLens (host := outline_host) "file:///bad.go"
                   (run_all (host := outline_host) [OpDidOpen bad_go])))
     = [EvLog "onDidOpenTextDocument" (Some "file:///bad.go"); EvBuild false;
        EvLog "codeLens" (Some "file:///bad.go");
        EvProvider "reference.provideCodeLenses" (Some 1);
        EvShowMessage (mkShow failure MTError)].
Proof.
  split.
  - destruct (codeLens_order (host := outline_host)
                (run_all (host := outline_host) [OpDidOpen a_go])
                "file:///a.go" 1) as [_ Hsecond]; [vm_compute; reflexivity|].
    apply (Hsecond [references_lens] [run_test_lens]); vm_compute; reflexivity.
  - destruct (codeLens_order (host := outline_host)
                (run_all (host := outline_host) [OpDidOpen bad_go])
                "file:///bad.go" 1) as [Hfirst _]; [vm_compute; reflexivity|].
    rewrite (Hfirst failure); vm_compute; reflexivity.
Defined.

Lemma executeCommand_too_few_arguments_witness :
  executeCommand (host := host) "workspace-edit" (Some [JStr "file:///a.go"])
    (run_all (host := host) [OpDidOpen a_go])
  = (Throw (ThrownError "Document undefined has not been opened."),
     add_event (EvLog "executeCommand" None)
       (run_all (host := host) [OpDidOpen a_go])).
Proof.
  apply (executeCommand_too_few_arguments (host := host) "workspace-edit"
           [JStr "file:///a.go"] (run_all (host := host) [OpDidOpen a_go])).
  cbn. lia.
Defined.

Lemma executeCommand_context_arguments_witness :
  let st := run_all (host := outline_host) [OpDidOpen a_go; OpDidOpen b_go] in
  exists editor st_active,
    executeCommand (host := outline_host) "workspace-edit"
      (Some ([JNum 1; JNum 2; JBool true] ++ [JStr "file:///a.go"; JNull])) st
    = (Throw failure,
       add_event (EvCommand "workspace-edit" [JNum 1; JNum 2; JBool true])
         st_active)
    /\ activeTextEditor (window st_active) = Some editor
    /\ editor_document st_active editor = Some 1
    /\ notifications
         (trace (add_event
                   (EvCommand "workspace-edit" [JNum 1; JNum 2; JBool true])
                   st_active))
       = notifications (trace st)
    /\ (truthy JNull = true ->
        ed_selection <$> editors st_active !! editor
        = Some (Some (mkSelection (js_start JNull) (js_end JNull))))
    /\ (truthy JNull = false -> editors st_active = editors st).
Proof.
  apply (executeCommand_context_arguments (host := outline_host)
           [OpDidOpen a_go; OpDidOpen b_go] "workspace-edit"
           [JNum 1; JNum 2; JBool true] "file:///a.go" JNull 1).
  vm_compute. reflexivity.
Defined.

Lemma didChange_applies_in_place_witness :
  let st := run_all (host := host) [OpDidOpen a_go] in
  exists doc,
    documents st !! 1 = Some doc
    /\ fst (didChangeTextDocument (host := host) "file:///a.go" 2 ["; x"] st)
       = Ok tt
    /\ documents
         (snd (didChangeTextDocument (host := host) "file:///a.go" 2 ["; x"] st))
         !! 1
       = Some (mkDoc (doc_uri doc)
                 (snd (body_apply (Collaborators := host) ["; x"] 2 (doc_body doc))))
    /\ notifications
         (trace (snd (didChangeTextDocument (host := host) "file:///a.go" 2
                        ["; x"] st)))
       = notifications (trace st)
         ++ match fst (body_apply (Collaborators := host) ["; x"] 2
                         (doc_body doc)) with
            | Ok _ => []
            | Throw e => [mkShow e MTError]
            end
    /\ build_calls
         (trace (snd (didChangeTextDocument (host := host) "file:///a.go" 2
                        ["; x"] st)))
       = build_calls (trace st).
Proof.
  apply (didChange_applies_in_place (host := host) [OpDidOpen a_go]
           "file:///a.go" 2 ["; x"] 1).
  vm_compute. reflexivity.
Defined.

Lemma open_then_request_resolves_witness :
  exists document,
    openedDocumentUris (step (host := host) initial_state (OpDidOpen a_go))
      !! "file:///a.go" = Some document
    /\ fst (handle (host := host) (ReqHover "file:///a.go" origin)
              (step (host := host) initial_state (OpDidOpen a_go)))
       = match fst (delegate (host := host) (ReqHover "file:///a.go" origin)
                      document
                      (entered (host := host) "hover" "file:///a.go" document
                         (step (host := host) initial_state (OpDidOpen a_go))))
         with
         | Ok a => Ok a
         | Throw e => Throw (ThrownResponseError InvalidRequest (thrown_to_string e) e)
         end
    /\ fst (handle (host := host) (ReqHover "file:///a.go" origin)
              (step (host := host) initial_state (OpDidOpen a_go)))
       <> Throw (DocumentNotOpen (JStr "file:///a.go")).
Proof.
  apply (open_then_request_resolves (host := host) a_go
           (ReqHover "file:///a.go" origin) initial_state).
  reflexivity.
Defined.

Lemma registered_document_has_its_uri_witness :
  exists doc,
    documents (run_all (host := host) [OpDidOpen a_go; OpDidOpen b_go]) !! 4
      = Some doc
    /\ uri_text (doc_uri doc) = "file:///b.go".
Proof.
  apply (registered_document_has_its_uri (host := host)
           [OpDidOpen a_go; OpDidOpen b_go] "file:///b.go" 4).
  vm_compute. reflexivity.
Defined.

Lemma open_then_close_registry_witness :
  openedDocumentUris
    (step (host := host)
       (step (host := host) (run_all (host := host) [OpDidOpen b_go])
          (OpDidOpen a_go))
       (OpDidClose "file:///a.go"))
  = openedDocumentUris (run_all (host := host) [OpDidOpen b_go]).
Proof.
  apply (open_then_close_registry (host := host) a_go
           (run_all (host := host) [OpDidOpen b_go])).
  vm_compute. reflexivity.
Defined.
